(** * pytest-fits: the comparison plugin ([pytest_fits/plugin.py])

    A shallow embedding of the plugin's control flow: option handling at
    configuration time, the per-test setup hook, and the wrapper that
    writes the produced FITS object, locates the baseline and calls the
    comparator.  The file system, the network, the temporary-directory
    allocator and the warning log are explicit state; exceptions are an
    error result. *)

From Stdlib Require Import Ascii QArith.
From stdpp Require Import base option list strings gmap fin_maps pretty.

Local Open Scope char_scope.
Local Open Scope stdpp_scope.

(** ** [os.path] on POSIX, over strings

    The plugin manipulates paths with [os.path.join], [os.path.dirname],
    [os.path.abspath] and [str.startswith]; they are transcribed from
    CPython's [posixpath]. *)

Module PosixPath.

Definition sep : ascii := "/".

Definition is_sep (c : ascii) : bool := bool_decide (c = sep).

Definition str_eqb (a b : string) : bool := bool_decide (a = b).

(** [s.startswith(p)] *)
Fixpoint startswith (s p : string) {struct p} : bool :=
  match p, s with
  | EmptyString, _ => true
  | String _ _, EmptyString => false
  | String a p', String b s' => bool_decide (a = b) && startswith s' p'
  end.

(** [s.endswith('/')] *)
Fixpoint endswith_sep (s : string) : bool :=
  match s with
  | EmptyString => false
  | String c EmptyString => is_sep c
  | String _ s' => endswith_sep s'
  end.

(** ['/' in s] *)
Fixpoint has_sep (s : string) : bool :=
  match s with
  | EmptyString => false
  | String c s' => is_sep c || has_sep s'
  end.

(** [s == '/' * len(s)] *)
Fixpoint all_sep (s : string) : bool :=
  match s with
  | EmptyString => true
  | String c s' => is_sep c && all_sep s'
  end.

(** [s.rstrip('/')] *)
Fixpoint rstrip_sep (s : string) : string :=
  match s with
  | EmptyString => EmptyString
  | String c s' =>
      let r := rstrip_sep s' in
      if is_sep c && str_eqb r "" then "" else String c r
  end.

(** [s[:s.rfind('/') + 1]] *)
Fixpoint upto_last_sep (s : string) : string :=
  match s with
  | EmptyString => EmptyString
  | String c s' =>
      if is_sep c || has_sep s' then String c (upto_last_sep s') else ""
  end.

(** [s.split('/')] *)
Fixpoint split (s : string) : list string :=
  match s with
  | EmptyString => [""]
  | String c s' =>
      if is_sep c then "" :: split s'
      else match split s' with
           | h :: t => String c h :: t
           | [] => [String c ""]
           end
  end.

(** ['/'.join(comps)] *)
Fixpoint join_sep (comps : list string) : string :=
  match comps with
  | [] => ""
  | [c] => c
  | c :: rest => c +:+ "/" +:+ join_sep rest
  end.

Definition isabs (p : string) : bool := startswith p "/".

(** One round of the loop of [posixpath.join]. *)
Definition join_step (path b : string) : string :=
  if startswith b "/" then b
  else if str_eqb path "" || endswith_sep path then path +:+ b
  else path +:+ "/" +:+ b.

(** [os.path.join(a, *p)] *)
Definition join (a : string) (p : list string) : string :=
  fold_left join_step p a.

(** [os.path.dirname(p)] *)
Definition dirname (p : string) : string :=
  let head := upto_last_sep p in
  if negb (str_eqb head "") && negb (all_sep head)
  then rstrip_sep head else head.

(** The body of the loop of [posixpath.normpath]; [new_comps] is kept
    with its last element first. *)
Definition norm_step (initial_slashes : nat) (new_comps : list string)
    (comp : string) : list string :=
  if str_eqb comp "" || str_eqb comp "." then new_comps
  else if negb (str_eqb comp "..")
          || (bool_decide (initial_slashes = 0)
              && bool_decide (new_comps = []))
          || match new_comps with
             | last :: _ => str_eqb last ".."
             | [] => false
             end
       then comp :: new_comps
       else match new_comps with
            | _ :: rest => rest
            | [] => []
            end.

Fixpoint sep_times (n : nat) : string :=
  match n with
  | 0 => ""
  | S n' => String sep (sep_times n')
  end.

(** [os.path.normpath(path)] *)
Definition normpath (path : string) : string :=
  if str_eqb path "" then "."
  else
    let initial_slashes :=
      if startswith path "/"
      then if startswith path "//" && negb (startswith path "///")
           then 2 else 1
      else 0 in
    let new_comps := fold_left (norm_step initial_slashes) (split path) [] in
    let path' := sep_times initial_slashes +:+ join_sep (rev new_comps) in
    if str_eqb path' "" then "." else path'.

(** [os.path.abspath(path)] with the working directory [cwd]. *)
Definition abspath (cwd path : string) : string :=
  normpath (if isabs path then path else join cwd [path]).



End PosixPath.

(** ** Python values, exceptions and the external collaborators *)

(** The bytes of a file. *)
Definition Content : Type := list Byte.byte.

Inductive PyExn : Type :=
  | NotImplementedError (msg : string)
  | Exception (msg : string)
  | Skipped (msg : string)              (* raised by [pytest.skip] *)
  | OSError (path : string)             (* missing file or directory, wrong kind *)
  | FileExistsError (path : string)
  | SameFileError (src dst : string)
  | URLError (url : string)
  | WriterError                         (* [hdu.writeto] refused the object *)
  | TestError (msg : string).           (* anything the test body raises *)

Inductive PyResult (A : Type) : Type :=
  | Ok (a : A)
  | Raise (e : PyExn).
Arguments Ok {A} a.
Arguments Raise {A} e.

(** What a [FITSDiff] object exposes to the plugin. *)
Record FITSDiffResult : Type := {
  identical : bool;
  report : string;
}.

(** The collaborators the plugin does not implement itself: the objects a
    test returns and their FITS serialisation ([hdu.writeto]), the
    comparator of astropy ([FITSDiff]), the tolerance type with the
    default [1e-7], and the names [tempfile] draws for new directories.
    [overwrite_requested kwargs] tells whether the write options ask
    [hdu.writeto] to replace an existing file ([overwrite=True]). *)
Class Collaborators : Type := {
  PyObj : Type;
  Tol : Type;
  py_none : PyObj;
  rtol_default : Tol;
  fits_diff : Content → Content → Tol → FITSDiffResult;
  hdu_bytes : PyObj → gmap string PyObj → option Content;
  overwrite_requested : gmap string PyObj → bool;
  candidate_name : nat → string;
}.

(** ** The state the plugin acts on *)

Inductive IOEvent : Type :=
  | EvMkdtemp (dir : string)
  | EvWriteto (path : string)
  | EvUrlopen (url : string)
  | EvOpenWrite (path : string)
  | EvExists (path : string)
  | EvCopyfile (src dst : string)
  | EvFITSDiff (a b : string)
  | EvRmtree (dir : string)
  | EvMakedirs (dir : string).

(** Command-line options, as [config.getoption] returns them. *)
Record Config : Type := {
  opt_fits : bool;
  opt_fits_generate_path : option string;
  opt_fits_baseline_path : option string;
}.

(** [class FITSComparison] *)
Record FITSComparison : Type := {
  config : Config;
  baseline_dir : option string;
  generate_dir : option string;
}.

(** Files and directories are keyed by their normalised absolute path. *)
Record World : Type := {
  cwd : string;
  tmpdir : string;                      (* [tempfile.gettempdir()] *)
  files : gmap string Content;
  dirs : gset string;
  web : gmap string Content;            (* what [urlopen(url).read()] yields *)
  tmp_seq : nat;                        (* candidate names drawn so far *)
  trace : list IOEvent;                 (* oldest first *)
  warnings : list string;
  registered : list FITSComparison;     (* [config.pluginmanager] *)
}.

Definition set_cwd (d : string) (w : World) : World :=
  {| cwd := d; tmpdir := tmpdir w; files := files w; dirs := dirs w;
     web := web w; tmp_seq := tmp_seq w; trace := trace w;
     warnings := warnings w; registered := registered w |}.

Definition set_files (f : gmap string Content) (w : World) : World :=
  {| cwd := cwd w; tmpdir := tmpdir w; files := f; dirs := dirs w;
     web := web w; tmp_seq := tmp_seq w; trace := trace w;
     warnings := warnings w; registered := registered w |}.

Definition set_dirs (d : gset string) (w : World) : World :=
  {| cwd := cwd w; tmpdir := tmpdir w; files := files w; dirs := d;
     web := web w; tmp_seq := tmp_seq w; trace := trace w;
     warnings := warnings w; registered := registered w |}.

Definition set_tmp_seq (n : nat) (w : World) : World :=
  {| cwd := cwd w; tmpdir := tmpdir w; files := files w; dirs := dirs w;
     web := web w; tmp_seq := n; trace := trace w;
     warnings := warnings w; registered := registered w |}.

Definition log_event (e : IOEvent) (w : World) : World :=
  {| cwd := cwd w; tmpdir := tmpdir w; files := files w; dirs := dirs w;
     web := web w; tmp_seq := tmp_seq w; trace := trace w ++ [e];
     warnings := warnings w; registered := registered w |}.

Definition add_warning (msg : string) (w : World) : World :=
  {| cwd := cwd w; tmpdir := tmpdir w; files := files w; dirs := dirs w;
     web := web w; tmp_seq := tmp_seq w; trace := trace w;
     warnings := warnings w ++ [msg]; registered := registered w |}.

Definition add_plugin (p : FITSComparison) (w : World) : World :=
  {| cwd := cwd w; tmpdir := tmpdir w; files := files w; dirs := dirs w;
     web := web w; tmp_seq := tmp_seq w; trace := trace w;
     warnings := warnings w; registered := registered w ++ [p] |}.

(** ** A state-and-exception monad *)

Definition M (A : Type) : Type := World → PyResult A * World.

Definition ret {A} (a : A) : M A := λ w, (Ok a, w).
Definition raise {A} (e : PyExn) : M A := λ w, (Raise e, w).
Definition bind {A B} (c : M A) (k : A → M B) : M B :=
  λ w, match c w with
       | (Ok a, w') => k a w'
       | (Raise e, w') => (Raise e, w')
       end.
Definition effect (f : World → World) : M unit := λ w, (Ok tt, f w).
Definition ask {A} (f : World → A) : M A := λ w, (Ok (f w), w).

Notation "x <~ c ;; k" := (bind c (λ x, k))
  (at level 100, c at next level, right associativity).
Notation "c ;;; k" := (bind c (λ _, k))
  (at level 100, right associativity).

(** ** Operating-system and library calls *)

Section Primitives.
Context `{Collaborators}.
Import PosixPath.

(** The key under which the world stores path [p]. *)
Definition resolve (w : World) (p : string) : string := abspath (cwd w) p.

Definition key_exists (w : World) (k : string) : bool :=
  bool_decide (is_Some (files w !! k)) || bool_decide (k ∈ dirs w).

(** [k] lies strictly below directory [d]. *)
Definition under (d k : string) : bool :=
  negb (str_eqb k d)
  && startswith k (if endswith_sep d then d else d +:+ "/").

(** The proper ancestors of a path, nearest first. *)
Fixpoint parents (fuel : nat) (p : string) : list string :=
  match fuel with
  | 0 => []
  | S fuel' =>
      let d := dirname p in
      if str_eqb d p then [] else d :: parents fuel' d
  end.

Definition ancestors (p : string) : list string :=
  parents (String.length p) p.

(** [os.path.abspath(p)] *)
Definition os_path_abspath (p : string) : M string :=
  ask (λ w, resolve w p).

(** [os.path.exists(p)], for a path [p] that is written plainly
    ([plain_path]): there the entry the operating system reaches by
    walking [p] is the one stored under the normalised form of [p].
    The plugin calls it on the absolute, normalised reference of the
    baseline and on the generate directory as it was given. *)
Definition os_path_exists (p : string) : M bool :=
  effect (log_event (EvExists p)) ;;;
  ask (λ w, key_exists w (resolve w p)).

(** Creating or truncating the file [p]: its directory must exist and
    [p] must not be a directory. *)
Definition put_file (p : string) (c : Content) : M unit :=
  λ w, let k := resolve w p in
       if bool_decide (dirname k ∈ dirs w) && negb (bool_decide (k ∈ dirs w))
       then (Ok tt, set_files (<[k := c]> (files w)) w)
       else (Raise (OSError p), w).

Definition get_file (p : string) : M Content :=
  λ w, match files w !! resolve w p with
       | Some c => (Ok c, w)
       | None => (Raise (OSError p), w)
       end.

(** [open(p, 'wb').write(c)] *)
Definition open_write (p : string) (c : Content) : M unit :=
  effect (log_event (EvOpenWrite p)) ;;;
  put_file p c.

(** [hdu.writeto(p, **kwargs)]: astropy refuses to replace a file that
    is already there unless the options ask for it. *)
Definition hdu_writeto (hdu : PyObj) (p : string)
    (kwargs : gmap string PyObj) : M unit :=
  effect (log_event (EvWriteto p)) ;;;
  match hdu_bytes hdu kwargs with
  | Some c =>
      present <~ ask (λ w, key_exists w (resolve w p)) ;;
      if present && negb (overwrite_requested kwargs)
      then raise (OSError p)
      else put_file p c
  | None => raise WriterError
  end.

(** [os.chdir(d)] *)
Definition os_chdir (d : string) : M unit :=
  λ w, let k := resolve w d in
       if bool_decide (k ∈ dirs w) then (Ok tt, set_cwd k w)
       else (Raise (OSError d), w).

(** [os.mkdir(p)] *)
Definition os_mkdir (p : string) : M unit :=
  λ w, let k := resolve w p in
       if key_exists w k then (Raise (FileExistsError p), w)
       else if bool_decide (dirname k ∈ dirs w)
       then (Ok tt, set_dirs ({[k]} ∪ dirs w) w)
       else (Raise (OSError p), w).

Definition TMP_MAX : nat := 100 * 100.

(** The loop of [tempfile.mkdtemp]: draw names until [os.mkdir]
    succeeds, at most [TMP_MAX] times. *)
Fixpoint mkdtemp_loop (tries : nat) : M string :=
  match tries with
  | 0 => raise (FileExistsError "No usable temporary directory name found")
  | S tries' =>
      λ w, let name := candidate_name (tmp_seq w) in
           let file := join (tmpdir w) ["tmp" +:+ name] in
           let w1 := set_tmp_seq (S (tmp_seq w)) w in
           match os_mkdir file w1 with
           | (Ok _, w2) => (Ok file, w2)
           | (Raise (FileExistsError _), w2) => mkdtemp_loop tries' w2
           | (Raise e, w2) => (Raise e, w2)
           end
  end.

(** [tempfile.mkdtemp()] *)
Definition mkdtemp : M string :=
  d <~ mkdtemp_loop TMP_MAX ;;
  effect (log_event (EvMkdtemp d)) ;;;
  ret d.

(** [urlopen(url).read()] *)
Definition urlopen_read (url : string) : M Content :=
  effect (log_event (EvUrlopen url)) ;;;
  λ w, match web w !! url with
       | Some c => (Ok c, w)
       | None => (Raise (URLError url), w)
       end.

(** [shutil.copyfile(src, dst)] *)
Definition shutil_copyfile (src dst : string) : M unit :=
  effect (log_event (EvCopyfile src dst)) ;;;
  same <~ ask (λ w, bool_decide (resolve w src = resolve w dst)
                    && key_exists w (resolve w src)) ;;
  if same then raise (SameFileError src dst)
  else c <~ get_file src ;; put_file dst c.

(** [shutil.rmtree(d)] *)
Definition shutil_rmtree (d : string) : M unit :=
  effect (log_event (EvRmtree d)) ;;;
  λ w, let k := resolve w d in
       if bool_decide (k ∈ dirs w)
       then (Ok tt,
             set_dirs (filter (λ x, x ≠ k ∧ under k x = false) (dirs w))
               (set_files (filter (λ kv, under k kv.1 = false) (files w)) w))
       else (Raise (OSError d), w).

(** [os.makedirs(d)]: the empty path is refused; for a path written
    plainly ([plain_path]) the directories made are those on the way to
    its normalised form. *)
Definition os_makedirs (d : string) : M unit :=
  effect (log_event (EvMakedirs d)) ;;;
  λ w, let k := resolve w d in
       if str_eqb d "" then (Raise (OSError d), w)
       else if key_exists w k then (Raise (FileExistsError d), w)
       else if bool_decide (Exists (λ a, is_Some (files w !! a)) (ancestors k))
       then (Raise (OSError d), w)
       else (Ok tt, set_dirs ({[k]} ∪ list_to_set (ancestors k) ∪ dirs w) w).

(** [FITSDiff(a, b, tolerance=rtol)] opens both files. *)
Definition FITSDiff (a b : string) (rtol : Tol) : M FITSDiffResult :=
  effect (log_event (EvFITSDiff a b)) ;;;
  ca <~ get_file a ;;
  cb <~ get_file b ;;
  ret (fits_diff ca cb rtol).

(** [warnings.warn(msg)] *)
Definition warnings_warn (msg : string) : M unit :=
  effect (add_warning msg).

(** [pytest.skip(msg)] *)
Definition pytest_skip {A} (msg : string) : M A := raise (Skipped msg).

End Primitives.

(** ** The plugin *)

Section Plugin.
Context `{Collaborators}.
Import PosixPath.

(** The keyword arguments of a [fits_compare] marker.  [atol],
    [baseline_dir] and [filename] are read with [kwargs.get(name, None)]
    (lines 119, 129, 149): their field is [None] when the keyword is
    absent or given as [None].  [rtol] and [writeto_kwargs] are read
    with a default ([1e-7], [{}], lines 120 and 122) that replaces an
    absent keyword only: their field is [None] when the keyword is
    absent, and a marker that passes [None] for one of them is not
    among the markers of this record. *)
Record Marker : Type := {
  kw_atol : option Tol;
  kw_rtol : option Tol;
  kw_writeto_kwargs : option (gmap string PyObj);
  kw_baseline_dir : option string;
  kw_filename : option string;
}.

(** A test callable before wrapping: a plain function, or a method
    bound to an instance ([inspect.ismethod]).  The body receives the
    positional and the keyword arguments. *)
Inductive TestFn : Type :=
  | PyFunction (name : string)
      (body : list PyObj → gmap string PyObj → M PyObj)
  | PyMethod (self : PyObj) (name : string)
      (body : list PyObj → gmap string PyObj → M PyObj).

Definition fn_name (f : TestFn) : string :=
  match f with
  | PyFunction name _ => name
  | PyMethod _ name _ => name
  end.

(** What a test item can hold as its callable: the test as collected,
    or the closure [item_function_wrapper] with what it captured. *)
Inductive Callable : Type :=
  | Plain (f : TestFn)
  | FitsWrapper (self : FITSComparison) (compare : Marker)
      (fspath : string) (original : TestFn).

(** The fields of a pytest item that the hook reads or writes;
    [cls] holds the attributes of the test class, if any. *)
Record Item : Type := {
  keywords : gmap string Marker;
  function : TestFn;
  cls : option (gmap string Callable);
  obj : Callable;
  fspath : string;                    (* [item.fspath.strpath] *)
}.

(** [compare_fits_files(filename1, filename2, atol, rtol)] *)
Definition compare_fits_files (filename1 filename2 : string)
    (atol : option Tol) (rtol : Tol) : M (bool * string) :=
  match atol with
  | Some _ => raise (NotImplementedError "atol argument not yet supported")
  | None =>
      let filename1 := "galactic_2d.fits" in
      let filename2 := "equatorial_3d.fits" in
      diff <~ FITSDiff filename1 filename2 rtol ;;
      ret (identical diff, report diff)
  end.

(** [_download_file(url)] *)
Definition _download_file (url : string) : M string :=
  u <~ urlopen_read url ;;
  result_dir <~ mkdtemp ;;
  let filename := join result_dir ["downloaded"] in
  open_write filename u ;;;
  ret filename.

(** [pytest_configure(config)] *)
Definition pytest_configure (config : Config) : M unit :=
  if opt_fits config || bool_decide (opt_fits_generate_path config ≠ None)
  then
    let baseline_dir := opt_fits_baseline_path config in
    let generate_dir := opt_fits_generate_path config in
    (if bool_decide (baseline_dir ≠ None) && bool_decide (generate_dir ≠ None)
     then warnings_warn
            "Ignoring --fits-baseline-path since --fits-generate-path is set"
     else ret tt) ;;;
    baseline_dir <~ match baseline_dir with
                    | Some b => b' <~ os_path_abspath b ;; ret (Some b')
                    | None => ret None
                    end ;;
    baseline_dir <~ match generate_dir with
                    | Some g => g' <~ os_path_abspath g ;; ret (Some g')
                    | None => ret baseline_dir
                    end ;;
    effect (add_plugin {| config := config;
                          baseline_dir := baseline_dir;
                          generate_dir := generate_dir |})
  else ret tt.

(** Lines 129-137 of the wrapper: which directory holds the baseline. *)
Definition resolve_baseline_dir (self : FITSComparison) (compare : Marker)
    (fspath : string) : string :=
  match kw_baseline_dir compare with
  | None =>
      match baseline_dir self with
      | None => join (dirname fspath) ["baseline"]
      | Some d => d
      end
  | Some d =>
      if negb (startswith d "http://" || startswith d "https://")
      then join (dirname fspath) [d]
      else d
  end.

(** Line 139. *)
Definition baseline_remote (baseline_dir : string) : bool :=
  startswith baseline_dir "http".

(** Lines 143-146: a bound method gets its own instance and the
    arguments after the first. *)
Definition call_original (original : TestFn) (args : list PyObj)
    (kwargs : gmap string PyObj) : M PyObj :=
  match original with
  | PyMethod self _ body => body (self :: tail args) kwargs
  | PyFunction _ body => body args kwargs
  end.

(** Lines 149-151. *)
Definition target_filename (compare : Marker) (original : TestFn) : string :=
  match kw_filename compare with
  | None => fn_name original +:+ ".fits"
  | Some f => f
  end.

Definition newline : string := String "010" "".
Definition tab : string := String "009" "".
Definition indent : string := "                                    ".

(** The message of lines 170-174, formatted with [test]. *)
Definition missing_baseline_msg (test : string) : string :=
  "FITS file not found for comparison test" +:+ newline +:+
  indent +:+ "Generated FITS file:" +:+ newline +:+
  indent +:+ tab +:+ test +:+ newline +:+
  indent +:+ "This is expected for new tests.".

(** Lines 158-161: the produced object goes to a fresh directory. *)
Definition save_result (hdu : PyObj) (filename : string)
    (writeto_kwargs : gmap string PyObj) : M (string * string) :=
  result_dir <~ mkdtemp ;;
  test_image <~ os_path_abspath (join result_dir [filename]) ;;
  hdu_writeto hdu test_image writeto_kwargs ;;;
  ret (result_dir, test_image).

(** Lines 164-167: where the baseline is read from. *)
Definition find_baseline (fspath baseline_dir filename : string) : M string :=
  if baseline_remote baseline_dir
  then _download_file (baseline_dir +:+ filename)
  else os_path_abspath (join (dirname fspath) [baseline_dir; filename]).

(** Lines 169-179: the baseline must exist and is copied next to the
    result. *)
Definition copy_baseline (baseline_file_ref result_dir test_image
    filename : string) : M string :=
  found <~ os_path_exists baseline_file_ref ;;
  if negb found then raise (Exception (missing_baseline_msg test_image))
  else
    baseline_file <~
      os_path_abspath (join result_dir ["baseline-" +:+ filename]) ;;
    shutil_copyfile baseline_file_ref baseline_file ;;;
    ret baseline_file.

(** Lines 181-186: compare, then clean up or fail. *)
Definition compare_and_report (baseline_file test_image result_dir : string)
    (atol : option Tol) (rtol : Tol) : M unit :=
  r <~ compare_fits_files baseline_file test_image atol rtol ;;
  if r.1 then shutil_rmtree result_dir
  else raise (Exception r.2).

(** Lines 158-179, the part of a verification run before the
    comparison; it yields the directory and the two local paths. *)
Definition prepare_comparison (fspath baseline_dir filename : string)
    (hdu : PyObj) (writeto_kwargs : gmap string PyObj)
    : M (string * string * string) :=
  saved <~ save_result hdu filename writeto_kwargs ;;
  baseline_file_ref <~ find_baseline fspath baseline_dir filename ;;
  baseline_file <~
    copy_baseline baseline_file_ref saved.1 saved.2 filename ;;
  ret (saved.1, baseline_file, saved.2).

(** Lines 155-186, the branch without a generate directory. *)
Definition verify (fspath baseline_dir filename : string) (hdu : PyObj)
    (writeto_kwargs : gmap string PyObj) (atol : option Tol) (rtol : Tol)
    : M unit :=
  p <~ prepare_comparison fspath baseline_dir filename hdu writeto_kwargs ;;
  compare_and_report p.1.2 p.2 p.1.1 atol rtol.

(** Lines 188-194, the branch with a generate directory. *)
Definition generate (generate_dir filename : string) (hdu : PyObj)
    (writeto_kwargs : gmap string PyObj) : M unit :=
  found <~ os_path_exists generate_dir ;;
  (if negb found then os_makedirs generate_dir else ret tt) ;;;
  target <~ os_path_abspath (join generate_dir [filename]) ;;
  hdu_writeto hdu target writeto_kwargs ;;;
  pytest_skip "Skipping test, since generating data".

(** The closure [item_function_wrapper] applied to [args] and [kwargs],
    with the variables it captured in [pytest_runtest_setup]. *)
Definition item_function_wrapper (self : FITSComparison) (compare : Marker)
    (fspath : string) (original : TestFn)
    (args : list PyObj) (kwargs : gmap string PyObj) : M PyObj :=
  let atol := kw_atol compare in
  let rtol := default rtol_default (kw_rtol compare) in
  let writeto_kwargs := default ∅ (kw_writeto_kwargs compare) in
  let baseline_dir := resolve_baseline_dir self compare fspath in
  hdu <~ call_original original args kwargs ;;
  let filename := target_filename compare original in
  match generate_dir self with
  | None =>
      verify fspath baseline_dir filename hdu writeto_kwargs atol rtol ;;;
      ret py_none
  | Some generate_dir =>
      generate generate_dir filename hdu writeto_kwargs ;;;
      ret py_none
  end.

(** [FITSComparison.pytest_runtest_setup(self, item)] *)
Definition pytest_runtest_setup (self : FITSComparison) (item : Item) : Item :=
  match keywords item !! "fits_compare" with
  | None => item
  | Some compare =>
      let original := function item in
      let wrapper := FitsWrapper self compare (fspath item) original in
      match cls item with
      | Some attrs =>
          {| keywords := keywords item; function := function item;
             cls := Some (<[fn_name (function item) := wrapper]> attrs);
             obj := obj item; fspath := fspath item |}
      | None =>
          {| keywords := keywords item; function := function item;
             cls := cls item; obj := wrapper; fspath := fspath item |}
      end
  end.

(** Calling a test callable. *)
Definition call (c : Callable) (args : list PyObj)
    (kwargs : gmap string PyObj) : M PyObj :=
  match c with
  | Plain (PyFunction _ body) => body args kwargs
  | Plain (PyMethod self _ body) => body (self :: args) kwargs
  | FitsWrapper self compare fspath original =>
      item_function_wrapper self compare fspath original args kwargs
  end.

(** How the runner grades a call. *)
Inductive Outcome : Type :=
  | Passed
  | Failed (e : PyExn)
  | Skip (msg : string).

Definition outcome {A} (r : PyResult A) : Outcome :=
  match r with
  | Ok _ => Passed
  | Raise (Skipped msg) => Skip msg
  | Raise e => Failed e
  end.

End Plugin.

(** ** Predicates used in the statements *)

(** [w'] is reachable from [w] by creating files and directories only:
    same working directory, nothing removed, and no directory of [w]
    turned into a file. *)
Record extends (w w' : World) : Prop := {
  ext_cwd : cwd w' = cwd w;
  ext_dirs : dirs w ⊆ dirs w';
  ext_files : ∀ k, is_Some (files w !! k) → is_Some (files w' !! k);
  ext_dir_nofile :
    ∀ k, k ∈ dirs w → files w !! k = None → files w' !! k = None;
}.

(** A computation that only ever extends the world. *)
Definition steady {A} (c : M A) : Prop :=
  ∀ w r w', c w = (r, w') → extends w w'.

(** Between [w] and [w'] the comparator was not invoked: the events
    logged since [w] contain no [EvFITSDiff]. *)
Definition no_comparison (w w' : World) : Prop :=
  ∃ evs, trace w' = trace w ++ evs
         ∧ Forall (λ e, ∀ a b, e ≠ EvFITSDiff a b) evs.

(** A computation that never invokes the comparator. *)
Definition uncompared {A} (c : M A) : Prop :=
  ∀ w r w', c w = (r, w') → no_comparison w w'.

(** A directory of the world that is not also recorded as a file. *)
Definition is_dir (w : World) (k : string) : Prop :=
  k ∈ dirs w ∧ files w !! k = None.

(** Path [p] names a directory, respectively a regular file, of [w]. *)
Definition path_is_dir (w : World) (p : string) : Prop :=
  is_dir w (resolve w p).

Definition path_is_file (w : World) (p : string) : Prop :=
  is_Some (files w !! resolve w p).

(** [os.path.exists(p)] as a predicate on a world. *)
Definition path_exists (w : World) (p : string) : bool :=
  key_exists w (resolve w p).

(** The string [t] contains [s]. *)
Definition contains (t s : string) : Prop :=
  ∃ pre post, t = pre +:+ s +:+ post.

(** ** Concrete collaborators, worlds and tests

    A test object is its own FITS bytes ([None] for an object that cannot
    be written), two files are identical when their bytes are equal, the
    write option [overwrite] is set when it holds an object other than
    [None], and temporary names are drawn as 0, 1, 2, ... *)

Module Sample.

#[export] Instance byte_eq_dec : EqDecision Byte.byte := Byte.byte_eq_dec.

Definition bytes_of (s : string) : Content := String.list_byte_of_string s.

Definition collab : Collaborators := {|
  PyObj := option Content;
  Tol := Q;
  py_none := None;
  rtol_default := (1 # 10000000)%Q;
  fits_diff a b _ :=
    {| identical := bool_decide (a = b);
       report := if bool_decide (a = b) then "No differences found."
                 else "Files differ." |};
  hdu_bytes o _ := o;
  overwrite_requested kwargs :=
    match kwargs !! "overwrite" with
    | Some (Some _) => true
    | _ => false
    end;
  candidate_name n := pretty n;
|}.

#[local] Existing Instance collab.

(** A project in [/proj] with one stored baseline, run from [/work]. *)
Definition world : World := {|
  cwd := "/work"; tmpdir := "/tmp";
  files := {[ "/proj/tests/baseline/test_img.fits" := bytes_of "IMG" ]};
  dirs := {[ "/"; "/tmp"; "/work"; "/proj"; "/proj/tests";
             "/proj/tests/baseline" ]};
  web := ∅; tmp_seq := 0; trace := []; warnings := []; registered := [];
|}.

(** The same, with the two files [compare_fits_files] names in the
    working directory, of different content. *)
Definition world_cwd_differ : World :=
  set_files (<[ "/work/galactic_2d.fits" := bytes_of "GAL" ]>
             (<[ "/work/equatorial_3d.fits" := bytes_of "EQU" ]>
              (files world))) world.

(** The same, with these two files of equal content. *)
Definition world_cwd_equal : World :=
  set_files (<[ "/work/galactic_2d.fits" := bytes_of "SKY" ]>
             (<[ "/work/equatorial_3d.fits" := bytes_of "SKY" ]>
              (files world))) world.

(** The same as [world_cwd_equal], but the stored baseline is not what
    the test produces. *)
Definition world_stale_baseline : World :=
  set_files (<[ "/proj/tests/baseline/test_img.fits" := bytes_of "OLD" ]>
             (files world_cwd_equal)) world_cwd_equal.


Definition test_path : string := "/proj/tests/test_a.py".

Definition cfg_fits : Config :=
  {| opt_fits := true; opt_fits_generate_path := None;
     opt_fits_baseline_path := None |}.

Definition cfg_generate : Config :=
  {| opt_fits := false; opt_fits_generate_path := Some "out";
     opt_fits_baseline_path := None |}.

Definition cfg_both : Config :=
  {| opt_fits := false; opt_fits_generate_path := Some "out";
     opt_fits_baseline_path := Some "ref" |}.

Definition plugin_verify : FITSComparison :=
  {| config := cfg_fits; baseline_dir := None; generate_dir := None |}.

Definition plugin_generate : FITSComparison :=
  {| config := cfg_generate; baseline_dir := Some "/work/out";
     generate_dir := Some "out" |}.

Definition marker : @Marker collab :=
  {| kw_atol := None; kw_rtol := None; kw_writeto_kwargs := None;
     kw_baseline_dir := None; kw_filename := None |}.

Definition marker_atol : @Marker collab :=
  {| kw_atol := Some (1 # 100)%Q; kw_rtol := None;
     kw_writeto_kwargs := None; kw_baseline_dir := None;
     kw_filename := None |}.

Definition marker_httpdata : @Marker collab :=
  {| kw_atol := None; kw_rtol := None; kw_writeto_kwargs := None;
     kw_baseline_dir := Some "httpdata"; kw_filename := None |}.

Definition marker_url : @Marker collab :=
  {| kw_atol := None; kw_rtol := None; kw_writeto_kwargs := None;
     kw_baseline_dir := Some "https://example.org/ref/";
     kw_filename := None |}.

(** [def test_img(): return <an object serialised as IMG>] *)
Definition test_img : @TestFn collab :=
  PyFunction "test_img" (λ _ _, ret (Some (bytes_of "IMG"))).

(** [def test_new(): ...], a test without a stored baseline. *)
Definition test_new : @TestFn collab :=
  PyFunction "test_new" (λ _ _, ret (Some (bytes_of "NEW"))).

Definition item_unmarked : @Item collab :=
  {| keywords := ∅; function := test_img; cls := None;
     obj := Plain test_img; fspath := test_path |}.

(** [world] with one baseline served over the network. *)
Definition world_web : World := {|
  cwd := cwd world; tmpdir := tmpdir world; files := files world;
  dirs := dirs world;
  web := {[ "https://example.org/ref/test_img.fits" := bytes_of "IMG" ]};
  tmp_seq := 0; trace := []; warnings := []; registered := [];
|}.


Definition cfg_baseline : Config :=
  {| opt_fits := true; opt_fits_generate_path := None;
     opt_fits_baseline_path := Some "ref" |}.

Definition marker_abs : @Marker collab :=
  {| kw_atol := None; kw_rtol := None; kw_writeto_kwargs := None;
     kw_baseline_dir := Some "/data/ref"; kw_filename := None |}.

(** [def test_boom(): raise ...] *)
Definition test_boom : @TestFn collab :=
  PyFunction "test_boom" (λ _ _, raise (TestError "boom")).

(** [def test_none(): return None] *)
Definition test_none : @TestFn collab :=
  PyFunction "test_none" (λ _ _, ret None).

Definition item_marked : @Item collab :=
  {| keywords := {[ "fits_compare" := marker ]}; function := test_img;
     cls := None; obj := Plain test_img; fspath := test_path |}.

(** [world_cwd_equal] with a stored baseline for [test_new] that is not
    what the test produces. *)
Definition world_differing_baseline : World :=
  set_files (<[ "/proj/tests/baseline/test_new.fits" := bytes_of "REF" ]>
             (files world_cwd_equal)) world_cwd_equal.



(** [def test_chdir(): os.chdir('/proj'); return <IMG>] *)
Definition test_chdir : @TestFn collab :=
  PyFunction "test_chdir"
    (λ _ _, os_chdir "/proj" ;;; ret (Some (bytes_of "IMG"))).

(** [--fits --fits-baseline-path=https://example.org/ref/] *)
Definition cfg_baseline_url : Config :=
  {| opt_fits := true; opt_fits_generate_path := None;
     opt_fits_baseline_path := Some "https://example.org/ref/" |}.

(** What [--fits --fits-baseline-path=ref] registers when run from
    [/work]. *)
Definition plugin_global : FITSComparison :=
  {| config := cfg_baseline; baseline_dir := Some "/work/ref";
     generate_dir := None |}.

(** [@pytest.mark.fits_compare(baseline_dir='mine')] *)
Definition marker_mine : @Marker collab :=
  {| kw_atol := None; kw_rtol := None; kw_writeto_kwargs := None;
     kw_baseline_dir := Some "mine"; kw_filename := None |}.

End Sample.

(** * Properties *)

(** ** Strings and paths *)

Module PathFacts.
Import PosixPath.

Lemma append_cons (c : ascii) (s t : string) :
  String c s +:+ t = String c (s +:+ t).
Proof. done. Qed.

Lemma append_nil_l (s : string) : "" +:+ s = s.
Proof. done. Qed.

Lemma append_nil_r (s : string) : s +:+ "" = s.
Proof. induction s as [|c s IH]; [done|]. by rewrite append_cons, IH. Qed.

Lemma append_assoc (a b c : string) : (a +:+ b) +:+ c = a +:+ (b +:+ c).
Proof.
  induction a as [|x a IH]; [done|]. by rewrite !append_cons, IH.
Qed.


Lemma startswith_app (s p q : string) :
  startswith s (p +:+ q) = true → startswith s p = true.
Proof.
  revert s. induction p as [|a p IH]; intros s; [done|].
  rewrite append_cons.
  destruct s as [|b s]; cbn; [done|].
  intros [Hab Hs]%andb_true_iff. rewrite Hab. cbn. by apply IH.
Qed.

Lemma startswith_app_l (a b p : string) :
  startswith a p = true → startswith (a +:+ b) p = true.
Proof.
  revert a. induction p as [|x p IH]; intros a; [done|].
  destruct a as [|y a]; cbn; [done|].
  intros [Hxy Ha]%andb_true_iff. rewrite append_cons. cbn.
  rewrite Hxy. cbn. by apply IH.
Qed.

Lemma isabs_cons (p : string) :
  isabs p = true → ∃ rest, p = String sep rest.
Proof.
  destruct p as [|c p]; cbn; [done|].
  rewrite andb_true_r. intros Hc%bool_decide_eq_true.
  exists p. by subst.
Qed.

(** An absolute path never looks like a URL. *)
Lemma isabs_not_http (p : string) :
  isabs p = true → startswith p "http" = false.
Proof. intros [rest ->]%isabs_cons. done. Qed.

Lemma isabs_join_step (a b : string) :
  isabs a = true → isabs (join_step a b) = true.
Proof.
  intros Ha. unfold join_step.
  destruct (startswith b "/") eqn:Hb; [done|].
  destruct (_ || _); by apply startswith_app_l.
Qed.

Lemma rstrip_sep_empty (s : string) :
  rstrip_sep s = "" → all_sep s = true.
Proof.
  induction s as [|c s IH]; [done|]. cbn.
  destruct (is_sep c) eqn:Hc; cbn; [|done].
  unfold str_eqb. case_bool_decide as Hr; [auto|done].
Qed.

Lemma isabs_dirname (p : string) :
  isabs p = true → isabs (dirname p) = true.
Proof.
  intros [rest ->]%isabs_cons. unfold dirname. cbn [upto_last_sep].
  replace (is_sep sep) with true by done. cbn [orb].
  set (head := String sep (upto_last_sep rest)).
  destruct (negb (str_eqb head "") && negb (all_sep head)) eqn:Hc; [|done].
  apply andb_true_iff in Hc as [_ Hall%negb_true_iff].
  subst head. cbn [rstrip_sep].
  replace (is_sep sep) with true by done. cbn [andb].
  unfold str_eqb. case_bool_decide as Hr; [|done].
  apply rstrip_sep_empty in Hr. cbn in Hall. by rewrite Hr in Hall.
Qed.

Lemma isabs_normpath (p : string) :
  isabs p = true → isabs (normpath p) = true.
Proof.
  intros Hp. unfold normpath.
  destruct (isabs_cons p Hp) as [rest ->].
  unfold str_eqb at 1. rewrite bool_decide_eq_false_2 by done.
  replace (startswith (String sep rest) "/") with true by done.
  cbv zeta.
  destruct (startswith (String sep rest) "//"
            && negb (startswith (String sep rest) "///")).
  - cbn [sep_times]. unfold str_eqb.
    rewrite bool_decide_eq_false_2 by done. done.
  - cbn [sep_times]. unfold str_eqb.
    rewrite bool_decide_eq_false_2 by done. done.
Qed.

(** [os.path.abspath] yields an absolute path when the working
    directory is one. *)
Lemma isabs_abspath (cwd p : string) :
  isabs cwd = true → isabs (abspath cwd p) = true.
Proof.
  intros Hc. unfold abspath. apply isabs_normpath.
  destruct (isabs p) eqn:Hp; [done|].
  cbn. by apply isabs_join_step.
Qed.

Lemma isabs_join (a : string) (ps : list string) :
  isabs a = true → isabs (join a ps) = true.
Proof.
  revert a. induction ps as [|b ps IH]; intros a Ha; [done|].
  cbn. apply IH. by apply isabs_join_step.
Qed.





Lemma join_step_isabs (a b : string) : isabs b = true → join_step a b = b.
Proof. intros Hb. unfold join_step. unfold isabs in Hb. by rewrite Hb. Qed.


End PathFacts.

(** ** The monad *)

Section MonadFacts.
Context {A B : Type}.

Lemma bind_ok (c : M A) (k : A → M B) w a w1 :
  c w = (Ok a, w1) → bind c k w = k a w1.
Proof. unfold bind. by intros ->. Qed.

Lemma bind_raise (c : M A) (k : A → M B) w e w1 :
  c w = (Raise e, w1) → bind c k w = (Raise e, w1).
Proof. unfold bind. by intros ->. Qed.

Lemma bind_ok_inv (c : M A) (k : A → M B) w b w' :
  bind c k w = (Ok b, w') →
  ∃ a w1, c w = (Ok a, w1) ∧ k a w1 = (Ok b, w').
Proof.
  unfold bind. destruct (c w) as [[a|e] w1]; [eauto|done].
Qed.

End MonadFacts.

(** ** Worlds only grow until [shutil.rmtree] *)

Section WorldFacts.
Context `{Collaborators}.
Import PosixPath PathFacts.

Lemma extends_refl w : extends w w.
Proof. by constructor. Qed.

Lemma extends_trans w1 w2 w3 :
  extends w1 w2 → extends w2 w3 → extends w1 w3.
Proof.
  intros [c1 d1 f1 n1] [c2 d2 f2 n2]. constructor.
  - congruence.
  - set_solver.
  - auto.
  - intros k Hk Hn. apply n2; [set_solver|auto].
Qed.

Lemma extends_resolve w w' p : extends w w' → resolve w' p = resolve w p.
Proof. intros [Hc _ _ _]. unfold resolve. by rewrite Hc. Qed.

Lemma extends_log e w : extends w (log_event e w).
Proof. by constructor. Qed.

Lemma steady_ret {A} (a : A) : steady (ret a).
Proof. intros w r w' [= <- <-]. apply extends_refl. Qed.

Lemma steady_raise {A} e : steady (@raise A e).
Proof. intros w r w' [= <- <-]. apply extends_refl. Qed.

Lemma steady_ask {A} (f : World → A) : steady (ask f).
Proof. intros w r w' [= <- <-]. apply extends_refl. Qed.

Lemma steady_log e : steady (effect (log_event e)).
Proof. intros w r w' [= <- <-]. apply extends_log. Qed.

Lemma steady_bind {A B} (c : M A) (k : A → M B) :
  steady c → (∀ a, steady (k a)) → steady (bind c k).
Proof.
  intros Hc Hk w r w'. unfold bind.
  destruct (c w) as [[a|e] w1] eqn:E.
  - intros Hka. eapply extends_trans; [by eapply Hc|by eapply Hk].
  - intros [= <- <-]. by eapply Hc.
Qed.

Lemma steady_put_file p c : steady (put_file p c).
Proof.
  intros w r w'. unfold put_file.
  destruct (_ && _) eqn:E; intros [= <- <-]; [|apply extends_refl].
  apply andb_true_iff in E as [_ Hnd%negb_true_iff%bool_decide_eq_false].
  constructor; cbn; [done|done| |].
  - intros k Hk. destruct (decide (resolve w p = k)) as [->|Hne].
    + rewrite lookup_insert_eq. eauto.
    + by rewrite lookup_insert_ne.
  - intros k Hk Hn. rewrite lookup_insert_ne; [done|]. by intros <-.
Qed.

Lemma steady_get_file p : steady (get_file p).
Proof.
  intros w r w'. unfold get_file.
  destruct (files w !! resolve w p); intros [= <- <-]; apply extends_refl.
Qed.

Lemma steady_os_mkdir p : steady (os_mkdir p).
Proof.
  intros w r w'. unfold os_mkdir.
  destruct (key_exists _ _); [intros [= <- <-]; apply extends_refl|].
  destruct (bool_decide _); intros [= <- <-]; [|apply extends_refl].
  constructor; cbn; [done|set_solver|done|done].
Qed.

Lemma extends_set_tmp_seq n w : extends w (set_tmp_seq n w).
Proof. by constructor. Qed.

Lemma steady_mkdtemp_loop n : steady (mkdtemp_loop n).
Proof.
  induction n as [|n IH]; [apply steady_raise|].
  intros w r w'. cbn [mkdtemp_loop].
  set (w1 := set_tmp_seq _ w).
  destruct (os_mkdir _ w1) as [[[]|e] w2] eqn:E.
  - intros [= <- <-].
    eapply extends_trans; [apply extends_set_tmp_seq|].
    by eapply steady_os_mkdir.
  - assert (extends w w2) as Hw2.
    { eapply extends_trans; [apply extends_set_tmp_seq|].
      by eapply steady_os_mkdir. }
    destruct e; try (intros [= <- <-]; exact Hw2).
    intros Hrec. eapply extends_trans; [exact Hw2|by eapply IH].
Qed.

Create HintDb steady discriminated.
Hint Resolve steady_ret steady_raise steady_ask steady_log steady_bind
  steady_put_file steady_get_file steady_os_mkdir steady_mkdtemp_loop
  : steady.

Lemma steady_mkdtemp : steady mkdtemp.
Proof. unfold mkdtemp. auto 10 with steady. Qed.

Lemma steady_os_path_abspath p : steady (os_path_abspath p).
Proof. unfold os_path_abspath. auto with steady. Qed.

Lemma steady_os_path_exists p : steady (os_path_exists p).
Proof. unfold os_path_exists. auto with steady. Qed.

Lemma steady_open_write p c : steady (open_write p c).
Proof. unfold open_write. auto with steady. Qed.

Lemma steady_hdu_writeto hdu p kw : steady (hdu_writeto hdu p kw).
Proof.
  unfold hdu_writeto. destruct (hdu_bytes hdu kw); [|auto with steady].
  apply steady_bind; [apply steady_log|]. intros _.
  apply steady_bind; [apply steady_ask|]. intros present.
  destruct (_ && _); auto with steady.
Qed.

Lemma steady_urlopen_read url : steady (urlopen_read url).
Proof.
  unfold urlopen_read. apply steady_bind; [auto with steady|].
  intros _ w r w'. destruct (web w !! url); intros [= <- <-];
    apply extends_refl.
Qed.

Lemma steady_shutil_copyfile src dst : steady (shutil_copyfile src dst).
Proof.
  unfold shutil_copyfile. apply steady_bind; [auto with steady|].
  intros _. apply steady_bind; [auto with steady|].
  intros []; auto with steady.
Qed.

Lemma steady_FITSDiff a b rtol : steady (FITSDiff a b rtol).
Proof. unfold FITSDiff. auto 10 with steady. Qed.

Hint Resolve steady_mkdtemp steady_os_path_abspath steady_os_path_exists
  steady_open_write steady_hdu_writeto steady_urlopen_read
  steady_shutil_copyfile steady_FITSDiff : steady.

Lemma steady_compare_fits_files f1 f2 atol rtol :
  steady (compare_fits_files f1 f2 atol rtol).
Proof. unfold compare_fits_files. destruct atol; auto 10 with steady. Qed.

Lemma steady_download_file url : steady (_download_file url).
Proof. unfold _download_file. auto 10 with steady. Qed.

Hint Resolve steady_compare_fits_files steady_download_file : steady.

Lemma steady_save_result hdu fn kw : steady (save_result hdu fn kw).
Proof. unfold save_result. auto 10 with steady. Qed.

Lemma steady_find_baseline fsp bd fn : steady (find_baseline fsp bd fn).
Proof. unfold find_baseline. destruct (baseline_remote bd); auto with steady. Qed.

Lemma steady_copy_baseline ref rd ti fn : steady (copy_baseline ref rd ti fn).
Proof.
  unfold copy_baseline. apply steady_bind; [auto with steady|].
  intros []; cbn [negb]; auto 10 with steady.
Qed.

End WorldFacts.

(** ** Which steps invoke the comparator *)

Section TraceFacts.
Context `{Collaborators}.

Lemma no_comparison_refl w : no_comparison w w.
Proof. exists []. by rewrite app_nil_r. Qed.

Lemma no_comparison_trans w1 w2 w3 :
  no_comparison w1 w2 → no_comparison w2 w3 → no_comparison w1 w3.
Proof.
  intros (e1 & T1 & F1) (e2 & T2 & F2). exists (e1 ++ e2). split.
  - by rewrite T2, T1, app_assoc.
  - by apply Forall_app.
Qed.

Lemma no_comparison_same_trace w w' :
  trace w' = trace w → no_comparison w w'.
Proof. intros E. exists []. by rewrite app_nil_r. Qed.

Lemma uncompared_ret {A} (a : A) : uncompared (ret a).
Proof. intros w r w' [= <- <-]. apply no_comparison_refl. Qed.

Lemma uncompared_raise {A} e : uncompared (@raise A e).
Proof. intros w r w' [= <- <-]. apply no_comparison_refl. Qed.

Lemma uncompared_ask {A} (f : World → A) : uncompared (ask f).
Proof. intros w r w' [= <- <-]. apply no_comparison_refl. Qed.

Lemma uncompared_log e :
  (∀ a b, e ≠ EvFITSDiff a b) → uncompared (effect (log_event e)).
Proof.
  intros He w r w' [= <- <-]. exists [e]. split; [done|].
  by apply Forall_singleton.
Qed.

Lemma uncompared_bind {A B} (c : M A) (k : A → M B) :
  uncompared c → (∀ a, uncompared (k a)) → uncompared (bind c k).
Proof.
  intros Hc Hk w r w'. unfold bind.
  destruct (c w) as [[a|e] w1] eqn:E.
  - intros Hka. eapply no_comparison_trans; [by eapply Hc|by eapply Hk].
  - intros [= <- <-]. by eapply Hc.
Qed.

Lemma uncompared_put_file p c : uncompared (put_file p c).
Proof.
  intros w r w'. unfold put_file.
  destruct (_ && _); intros [= <- <-]; by apply no_comparison_same_trace.
Qed.

Lemma uncompared_get_file p : uncompared (get_file p).
Proof.
  intros w r w'. unfold get_file.
  destruct (files w !! _); intros [= <- <-]; apply no_comparison_refl.
Qed.

Lemma os_mkdir_trace p w r w' : os_mkdir p w = (r, w') → trace w' = trace w.
Proof.
  unfold os_mkdir. destruct (key_exists _ _); [by intros [= <- <-]|].
  destruct (bool_decide _); by intros [= <- <-].
Qed.

Lemma uncompared_mkdtemp_loop n : uncompared (mkdtemp_loop n).
Proof.
  induction n as [|n IH]; [apply uncompared_raise|].
  intros w r w'. cbn [mkdtemp_loop]. set (w1 := set_tmp_seq _ w).
  destruct (os_mkdir _ w1) as [[[]|e] w2] eqn:E;
    pose proof (os_mkdir_trace _ _ _ _ E) as T.
  - intros [= <- <-]. by apply no_comparison_same_trace.
  - assert (no_comparison w w2) as Hw2 by by apply no_comparison_same_trace.
    destruct e; try (intros [= <- <-]; exact Hw2).
    intros Hrec. eapply no_comparison_trans; [exact Hw2|by eapply IH].
Qed.

Create HintDb uncompared discriminated.
Hint Resolve uncompared_ret uncompared_raise uncompared_ask
  uncompared_bind uncompared_put_file uncompared_get_file
  uncompared_mkdtemp_loop : uncompared.
Hint Extern 1 (uncompared (effect (log_event _))) =>
  apply uncompared_log; intros ? ?; discriminate : uncompared.

Lemma uncompared_mkdtemp : uncompared mkdtemp.
Proof. unfold mkdtemp. auto 10 with uncompared. Qed.

Lemma uncompared_hdu_writeto hdu p kw : uncompared (hdu_writeto hdu p kw).
Proof.
  unfold hdu_writeto. destruct (hdu_bytes hdu kw); [|auto with uncompared].
  apply uncompared_bind; [auto with uncompared|]. intros _.
  apply uncompared_bind; [auto with uncompared|]. intros present.
  destruct (_ && _); auto with uncompared.
Qed.

Lemma uncompared_urlopen_read url : uncompared (urlopen_read url).
Proof.
  unfold urlopen_read. apply uncompared_bind; [auto with uncompared|].
  intros _ w r w'. destruct (web w !! url); intros [= <- <-];
    apply no_comparison_refl.
Qed.

Lemma uncompared_shutil_copyfile src dst :
  uncompared (shutil_copyfile src dst).
Proof.
  unfold shutil_copyfile. apply uncompared_bind; [auto with uncompared|].
  intros _. apply uncompared_bind; [auto with uncompared|].
  intros []; auto with uncompared.
Qed.

Hint Resolve uncompared_mkdtemp uncompared_hdu_writeto
  uncompared_urlopen_read uncompared_shutil_copyfile : uncompared.

Lemma uncompared_save_result hdu fn kw : uncompared (save_result hdu fn kw).
Proof. unfold save_result, os_path_abspath. auto 10 with uncompared. Qed.

Lemma uncompared_find_baseline fsp bd fn :
  uncompared (find_baseline fsp bd fn).
Proof.
  unfold find_baseline, _download_file, open_write, os_path_abspath.
  destruct (baseline_remote bd); auto 10 with uncompared.
Qed.

Lemma uncompared_copy_baseline ref rd ti fn :
  uncompared (copy_baseline ref rd ti fn).
Proof.
  unfold copy_baseline, os_path_exists, os_path_abspath.
  apply uncompared_bind; [auto with uncompared|].
  intros []; cbn [negb]; auto 10 with uncompared.
Qed.

Lemma uncompared_prepare_comparison fsp bd fn hdu kw :
  uncompared (prepare_comparison fsp bd fn hdu kw).
Proof.
  unfold prepare_comparison.
  auto 10 using uncompared_save_result, uncompared_find_baseline,
    uncompared_copy_baseline with uncompared.
Qed.

End TraceFacts.

(** ** What the steps of a verification run establish *)

Section StepFacts.
Context `{Collaborators}.
Import PosixPath PathFacts.

Lemma is_dir_extends w w' k : extends w w' → is_dir w k → is_dir w' k.
Proof.
  intros [_ Hd _ Hn] [Hk Hf]. split; [set_solver|by apply Hn].
Qed.

Lemma resolve_log e w p : resolve (log_event e w) p = resolve w p.
Proof. done. Qed.

Lemma resolve_set_dirs d w p : resolve (set_dirs d w) p = resolve w p.
Proof. done. Qed.

Lemma os_path_abspath_eq p w : os_path_abspath p w = (Ok (resolve w p), w).
Proof. done. Qed.


(** A file in the way, and no request to replace it: the write is
    refused. *)
Lemma hdu_writeto_refuses hdu p kw c w :
  hdu_bytes hdu kw = Some c →
  is_Some (files w !! resolve w p) →
  overwrite_requested kw = false →
  hdu_writeto hdu p kw w = (Raise (OSError p), log_event (EvWriteto p) w).
Proof.
  intros Hc Hf Ho. unfold hdu_writeto, bind, effect, ask. rewrite Hc, Ho.
  rewrite resolve_log. unfold key_exists. cbn [files dirs log_event].
  by rewrite (bool_decide_eq_true_2 _ Hf).
Qed.


Lemma os_path_exists_eq p w :
  os_path_exists p w = (Ok (path_exists w p), log_event (EvExists p) w).
Proof. done. Qed.

Lemma key_exists_false w k :
  key_exists w k = false → files w !! k = None ∧ k ∉ dirs w.
Proof.
  unfold key_exists. intros [Hf Hd]%orb_false_iff.
  apply bool_decide_eq_false in Hf, Hd. split; [|done].
  destruct (files w !! k) eqn:E; [|done]. destruct Hf. eauto.
Qed.

Lemma os_mkdir_ok p w u w' :
  os_mkdir p w = (Ok u, w') → is_dir w' (resolve w' p).
Proof.
  unfold os_mkdir. destruct (key_exists _ _) eqn:E; [done|].
  destruct (bool_decide _); [|done]. intros [= _ <-].
  apply key_exists_false in E as [Hf _].
  split; cbn; [set_solver|done].
Qed.

Lemma mkdtemp_loop_ok n w d w' :
  mkdtemp_loop n w = (Ok d, w') → is_dir w' (resolve w' d).
Proof.
  revert w. induction n as [|n IH]; intros w; [done|].
  cbn [mkdtemp_loop]. set (w1 := set_tmp_seq _ w).
  destruct (os_mkdir _ w1) as [[[]|e] w2] eqn:E.
  - intros [= <- <-]. by eapply os_mkdir_ok.
  - destruct e; try done. apply IH.
Qed.

Lemma mkdtemp_ok w d w' :
  mkdtemp w = (Ok d, w') → is_dir w' (resolve w' d).
Proof.
  unfold mkdtemp. intros (d' & w1 & Hloop & Hrest)%bind_ok_inv.
  cbv in Hrest. injection Hrest as <- <-.
  by apply mkdtemp_loop_ok in Hloop.
Qed.

Lemma put_file_ok p c w u w' :
  put_file p c w = (Ok u, w') → files w' !! resolve w' p = Some c.
Proof.
  unfold put_file. destruct (_ && _); [|done]. intros [= _ <-].
  cbn. apply lookup_insert_eq.
Qed.

Lemma hdu_writeto_ok hdu p kw w u w' :
  hdu_writeto hdu p kw w = (Ok u, w') →
  ∃ c, hdu_bytes hdu kw = Some c ∧ files w' !! resolve w' p = Some c.
Proof.
  unfold hdu_writeto. intros ([] & w1 & Hlog & Hput)%bind_ok_inv.
  destruct (hdu_bytes hdu kw) as [c|]; [|done].
  apply bind_ok_inv in Hput as (present & w1' & [= <- <-] & Hput).
  destruct (_ && _); [done|].
  exists c. split; [done|]. by eapply put_file_ok.
Qed.

(** Lines 158-161 leave a fresh directory and the written result. *)
Lemma save_result_ok hdu fn kw w rd ti w' :
  save_result hdu fn kw w = (Ok (rd, ti), w') →
  is_dir w' (resolve w' rd)
  ∧ ∃ c, hdu_bytes hdu kw = Some c ∧ files w' !! resolve w' ti = Some c.
Proof.
  unfold save_result.
  intros (d & w1 & Hmk & Hrest)%bind_ok_inv.
  apply bind_ok_inv in Hrest as (t & w2 & Habs & Hrest).
  apply bind_ok_inv in Hrest as ([] & w3 & Hwr & Hret).
  injection Hret as <- <- <-.
  pose proof (steady_os_path_abspath _ _ _ _ Habs) as E12.
  pose proof (steady_hdu_writeto _ _ _ _ _ _ Hwr) as E23.
  split.
  - apply mkdtemp_ok in Hmk.
    eapply is_dir_extends; [exact E23|].
    eapply is_dir_extends; [exact E12|].
    by rewrite !(extends_resolve _ _ _ E23), !(extends_resolve _ _ _ E12).
  - by eapply hdu_writeto_ok.
Qed.

Lemma shutil_copyfile_ok src dst w u w' :
  shutil_copyfile src dst w = (Ok u, w') →
  is_Some (files w' !! resolve w' dst).
Proof.
  unfold shutil_copyfile. intros ([] & w1 & _ & Hrest)%bind_ok_inv.
  apply bind_ok_inv in Hrest as (same & w2 & _ & Hrest).
  destruct same; [done|].
  apply bind_ok_inv in Hrest as (c & w3 & _ & Hput).
  apply put_file_ok in Hput. eauto.
Qed.

(** Lines 169-179 leave the copy of the baseline. *)
Lemma copy_baseline_ok ref rd ti fn w bf w' :
  copy_baseline ref rd ti fn w = (Ok bf, w') →
  is_Some (files w' !! resolve w' bf).
Proof.
  unfold copy_baseline. intros (found & w1 & _ & Hrest)%bind_ok_inv.
  destruct found; [|done]. cbn [negb] in Hrest.
  apply bind_ok_inv in Hrest as (b & w2 & _ & Hrest).
  apply bind_ok_inv in Hrest as ([] & w3 & Hcp & Hret).
  injection Hret as <- <-. by eapply shutil_copyfile_ok.
Qed.

(** Lines 158-179: when the preparation succeeds, the temporary
    directory exists and holds the result and the baseline copy. *)
Lemma prepare_comparison_ok fsp bd fn hdu kw w rd bf ti w' :
  prepare_comparison fsp bd fn hdu kw w = (Ok (rd, bf, ti), w') →
  is_dir w' (resolve w' rd)
  ∧ is_Some (files w' !! resolve w' ti)
  ∧ is_Some (files w' !! resolve w' bf).
Proof.
  unfold prepare_comparison.
  intros ([rd' ti'] & w1 & Hsave & Hrest)%bind_ok_inv.
  apply bind_ok_inv in Hrest as (ref & w2 & Hfind & Hrest).
  apply bind_ok_inv in Hrest as (bf' & w3 & Hcopy & Hret).
  cbn [fst snd] in Hret, Hcopy. injection Hret as <- <- <- <-.
  pose proof (steady_find_baseline _ _ _ _ _ _ Hfind) as E12.
  pose proof (steady_copy_baseline _ _ _ _ _ _ _ Hcopy) as E23.
  pose proof (extends_trans _ _ _ E12 E23) as E13.
  apply save_result_ok in Hsave as [Hdir (c & _ & Hti)].
  rewrite !(extends_resolve _ _ _ E13). split; [|split].
  - by eapply is_dir_extends.
  - eapply ext_files; [exact E13|]. eauto.
  - rewrite <- (extends_resolve _ _ _ E13). by eapply copy_baseline_ok.
Qed.

(** What [compare_fits_files] returns when it returns. *)
Lemma compare_fits_files_inv f1 f2 atol rtol w b msg w' :
  compare_fits_files f1 f2 atol rtol w = (Ok (b, msg), w') →
  atol = None
  ∧ ∃ ca cb, b = identical (fits_diff ca cb rtol)
             ∧ msg = report (fits_diff ca cb rtol).
Proof.
  unfold compare_fits_files. destruct atol as [a|]; [done|].
  intros (d & w1 & Hdiff & Hret)%bind_ok_inv.
  injection Hret as <- <- <-. split; [done|].
  unfold FITSDiff in Hdiff.
  apply bind_ok_inv in Hdiff as ([] & w2 & _ & Hdiff).
  apply bind_ok_inv in Hdiff as (ca & w3 & _ & Hdiff).
  apply bind_ok_inv in Hdiff as (cb & w4 & _ & Hret).
  injection Hret as <- <-. eauto.
Qed.

(** [shutil.rmtree] on an existing directory removes it and all below
    it, and nothing else. *)
Lemma shutil_rmtree_ok d w :
  is_dir w (resolve w d) →
  ∃ w', shutil_rmtree d w = (Ok tt, w')
        ∧ path_exists w' d = false
        ∧ (∀ k, under (resolve w d) k = true →
                files w' !! k = None ∧ k ∉ dirs w')
        ∧ (∀ k, under (resolve w d) k = false →
                files w' !! k = files w !! k)
        ∧ cwd w' = cwd w.
Proof.
  intros [Hd Hf]. unfold shutil_rmtree, bind, effect. cbn.
  change (resolve (log_event (EvRmtree d) w) d) with (resolve w d).
  rewrite (bool_decide_eq_true_2 _ Hd).
  eexists. split; [reflexivity|].
  split; [|split; [|split; [|done]]].
  - unfold path_exists, key_exists, resolve. cbn. fold (resolve w d).
    apply orb_false_iff. split; apply bool_decide_eq_false.
    + intros [c Hc]. apply map_lookup_filter_Some in Hc as [Hc _].
      congruence.
    + intros [Hne _]%elem_of_filter. by apply Hne.
  - intros k Hk. split.
    + apply map_lookup_filter_None. right. intros c _. cbn. congruence.
    + intros [[_ Hu] _]%elem_of_filter. congruence.
  - intros k Hk. cbn. rewrite map_lookup_filter.
    destruct (files w !! k) as [c|]; [|done]. cbn.
    by rewrite option_guard_True.
Qed.




End StepFacts.

(** * The properties of the specification *)

Section Claims.
Context `{Collaborators}.
Import PosixPath PathFacts.

(** C9: a test without the [fits_compare] marker is left untouched by
  the setup hook: the item, hence its callable, its class attributes
  and the result of calling it on any arguments in any world, are
  those of the test as collected. *)
Theorem setup_without_marker_is_passthrough
  (self : FITSComparison) (item : Item) :
keywords item !! "fits_compare" = None →
pytest_runtest_setup self item = item
∧ obj (pytest_runtest_setup self item) = obj item
∧ cls (pytest_runtest_setup self item) = cls item
∧ function (pytest_runtest_setup self item) = function item
∧ ∀ args kwargs w,
    call (obj (pytest_runtest_setup self item)) args kwargs w
    = call (obj item) args kwargs w.
Proof.
intros Hno. unfold pytest_runtest_setup. by rewrite Hno.
Qed.

(** C8, as the code has it: the baseline directory is the marker's
  [baseline_dir] when there is one, else the plugin's global directory,
  else [baseline] next to the test file.  A marker directory with a URL
  prefix is kept as it is, classified remote, and used as it is to build
  the download URL.  A marker directory without URL prefix and the
  default are joined to the directory of the test file and classified
  local.  The global directory, absolute since [pytest_configure], is
  kept as it is and classified local, whatever the test file and also
  when it was given as a URL.  A local directory is absolute, and the
  reference looked up is [<directory>/<filename>]. *)
Theorem baseline_location_priority
  (self : FITSComparison) (compare : Marker)
  (fspath filename : string) (w : World) :
isabs fspath = true →
(∀ g, baseline_dir self = Some g → isabs g = true) →
let bd := resolve_baseline_dir self compare fspath in
(∀ d, kw_baseline_dir compare = Some d →
      startswith d "http://" || startswith d "https://" = true →
      bd = d
      ∧ baseline_remote bd = true
      ∧ find_baseline fspath bd filename = _download_file (d +:+ filename))
∧ (∀ d, kw_baseline_dir compare = Some d →
        startswith d "http://" || startswith d "https://" = false →
        bd = join (dirname fspath) [d]
        ∧ baseline_remote bd = false
        ∧ find_baseline fspath bd filename w
          = (Ok (abspath (cwd w) (join bd [filename])), w))
∧ (∀ g, kw_baseline_dir compare = None → baseline_dir self = Some g →
        bd = g
        ∧ baseline_remote bd = false
        ∧ find_baseline fspath bd filename w
          = (Ok (abspath (cwd w) (join g [filename])), w))
∧ (kw_baseline_dir compare = None → baseline_dir self = None →
   bd = join (dirname fspath) ["baseline"]
   ∧ baseline_remote bd = false
   ∧ find_baseline fspath bd filename w
     = (Ok (abspath (cwd w) (join bd [filename])), w)).
Proof.
intros Habs Hglob bd. subst bd. unfold resolve_baseline_dir.
assert (∀ d, isabs d = true →
             baseline_remote d = false
             ∧ find_baseline fspath d filename w
               = (Ok (abspath (cwd w) (join d [filename])), w)) as Hloc.
{ intros d Hd. assert (baseline_remote d = false) as Hr
    by by apply isabs_not_http.
  split; [exact Hr|].
  unfold find_baseline. rewrite Hr. cbn [join fold_left].
  by rewrite (join_step_isabs _ _ Hd). }
assert (∀ d, isabs (join (dirname fspath) [d]) = true) as Hjoin.
{ intros d. apply isabs_join. by apply isabs_dirname. }
split; [|split; [|split]].
- intros d Hd Hurl. rewrite Hd, Hurl. cbn [negb]. split; [done|].
  assert (baseline_remote d = true) as Hr.
  { unfold baseline_remote. apply orb_true_iff in Hurl as [Hurl|Hurl].
    + by apply (startswith_app d "http" "://").
    + by apply (startswith_app d "http" "s://"). }
  split; [exact Hr|]. unfold find_baseline. by rewrite Hr.
- intros d Hd Hurl. rewrite Hd, Hurl. cbn [negb]. split; [done|].
  apply Hloc, Hjoin.
- intros g Hm Hg. rewrite Hm, Hg. split; [done|]. apply Hloc, Hglob, Hg.
- intros Hm Hg. rewrite Hm, Hg. split; [done|]. apply Hloc, Hjoin.
Qed.

(** C10, as the code has it: a marker directory that does not start
  with [http://] or [https://] is joined to the directory of the test
  file; the test for the bare prefix [http] is then applied to the
  joined path, which starts with [/] because the test file's path is
  absolute.  So every such directory, also one whose name begins with
  [http], is classified local and is looked up on the file system,
  without touching the world. *)
Theorem local_marker_dir_is_never_remote
  (self : FITSComparison) (compare : Marker)
  (fspath d filename : string) (w : World) :
isabs fspath = true →
kw_baseline_dir compare = Some d →
startswith d "http://" = false →
startswith d "https://" = false →
let bd := resolve_baseline_dir self compare fspath in
bd = join (dirname fspath) [d]
∧ baseline_remote bd = false
∧ find_baseline fspath bd filename w
  = (Ok (abspath (cwd w) (join (dirname fspath) [bd; filename])), w).
Proof.
intros Habs Hd H1 H2 bd. subst bd. unfold resolve_baseline_dir.
rewrite Hd, H1, H2. cbn [orb negb].
assert (baseline_remote (join (dirname fspath) [d]) = false) as Hloc.
{ apply isabs_not_http, isabs_join. by apply isabs_dirname. }
split; [done|]. split; [done|].
unfold find_baseline. by rewrite Hloc.
Qed.

(** Lines 85-102: when [--fits] is set or a generate path is given,
  [pytest_configure] succeeds and registers exactly one
  [FITSComparison].  Its baseline directory is absolute: the absolute
  generate path when one is given (a baseline path given as well is
  then ignored, and exactly one warning says so), else the absolute
  baseline path, else [None].  Line 98 stores the absolute generate
  path as the baseline directory; the generate directory itself is the
  option as it was given.  Nothing else changes. *)
Lemma configure_registers_one_plugin (cfg : Config) (w : World) :
opt_fits cfg = true ∨ opt_fits_generate_path cfg ≠ None →
isabs (cwd w) = true →
∃ p w',
  pytest_configure cfg w = (Ok tt, w')
  ∧ registered w' = registered w ++ [p]
  ∧ config p = cfg
  ∧ generate_dir p = opt_fits_generate_path cfg
  ∧ baseline_dir p
    = match opt_fits_generate_path cfg with
      | Some g => Some (abspath (cwd w) g)
      | None => abspath (cwd w) <$> opt_fits_baseline_path cfg
      end
  ∧ (∀ b, baseline_dir p = Some b → isabs b = true)
  ∧ warnings w'
    = warnings w
      ++ match opt_fits_baseline_path cfg, opt_fits_generate_path cfg with
         | Some _, Some _ =>
             ["Ignoring --fits-baseline-path since --fits-generate-path is set"]
         | _, _ => []
         end
  ∧ files w' = files w ∧ dirs w' = dirs w ∧ trace w' = trace w
  ∧ cwd w' = cwd w.
Proof.
intros Hon Hcwd. unfold pytest_configure.
assert (opt_fits cfg || bool_decide (opt_fits_generate_path cfg ≠ None)
        = true) as ->.
{ destruct Hon as [->|Hg]; [done|].
  rewrite (bool_decide_eq_true_2 _ Hg). apply orb_true_r. }
destruct cfg as [fits [g|] [b|]]; cbn;
  (eexists; eexists; split; [reflexivity|]); cbn;
  rewrite ?app_nil_r; repeat split; try done;
  intros b' [= <-]; by apply isabs_abspath.
Qed.

(** C5: in a verification run (no generate directory) whose test
  returned an object that was written to a fresh temporary directory,
  if the baseline reference does not exist when it is looked up, the
  wrapper raises at once: the result is the exception whose message
  contains the path of the generated file and the note that this is
  expected for new tests, the test is graded failed, the world is the
  one of the existence check, and the comparator was never invoked. *)
Theorem missing_baseline_fails_before_comparison
  (self : FITSComparison) (compare : Marker) (fspath : string)
  (original : TestFn) (args : list PyObj) (kwargs : gmap string PyObj)
  (w w1 w2 w3 : World) (hdu : PyObj) (rd ti ref : string) :
generate_dir self = None →
call_original original args kwargs w = (Ok hdu, w1) →
save_result hdu (target_filename compare original)
  (default ∅ (kw_writeto_kwargs compare)) w1 = (Ok (rd, ti), w2) →
find_baseline fspath (resolve_baseline_dir self compare fspath)
  (target_filename compare original) w2 = (Ok ref, w3) →
path_exists w3 ref = false →
item_function_wrapper self compare fspath original args kwargs w
= (Raise (Exception (missing_baseline_msg ti)), log_event (EvExists ref) w3)
∧ outcome (A := PyObj) (Raise (Exception (missing_baseline_msg ti)))
  = Failed (Exception (missing_baseline_msg ti))
∧ contains (missing_baseline_msg ti) ti
∧ contains (missing_baseline_msg ti) "This is expected for new tests."
∧ no_comparison w1 (log_event (EvExists ref) w3).
Proof.
intros Hgen Hbody Hsave Hfind Hmiss.
split; [|split; [done|split; [|split]]].
- unfold item_function_wrapper. rewrite (bind_ok _ _ _ _ _ Hbody), Hgen.
  unfold verify. do 2 apply bind_raise. unfold prepare_comparison.
  rewrite (bind_ok _ _ _ _ _ Hsave). cbn [fst snd].
  rewrite (bind_ok _ _ _ _ _ Hfind). apply bind_raise.
  unfold copy_baseline.
  rewrite (bind_ok _ _ _ _ _ (os_path_exists_eq _ _)), Hmiss. done.
- exists ("FITS file not found for comparison test" +:+ newline +:+
          indent +:+ "Generated FITS file:" +:+ newline +:+
          indent +:+ tab),
         (newline +:+ indent +:+ "This is expected for new tests.").
  unfold missing_baseline_msg. rewrite !append_assoc. reflexivity.
- exists ("FITS file not found for comparison test" +:+ newline +:+
          indent +:+ "Generated FITS file:" +:+ newline +:+
          indent +:+ tab +:+ ti +:+ newline +:+ indent), "".
  unfold missing_baseline_msg.
  rewrite append_nil_r, !append_assoc. reflexivity.
- eapply no_comparison_trans; [by eapply uncompared_save_result|].
  eapply no_comparison_trans; [by eapply uncompared_find_baseline|].
  exists [EvExists ref]. split; [done|]. by apply Forall_singleton.
Qed.

(** Lines 57-58 overwrite both parameters: what [compare_fits_files]
  does is the same for all paths it is given. *)
Lemma compare_fits_files_ignores_its_paths
  (f1 f2 g1 g2 : string) (atol : option Tol) (rtol : Tol) (w : World) :
compare_fits_files f1 f2 atol rtol w = compare_fits_files g1 g2 atol rtol w.
Proof. reflexivity. Qed.

(** The branch of line 183 that cleans up: in a verification run that
  reached the comparison, when [compare_fits_files] answers identical
  the wrapper returns, the test passes, and the temporary directory
  and everything below it are gone. *)
Lemma identical_answer_passes_and_cleans_up
  (self : FITSComparison) (compare : Marker) (fspath : string)
  (original : TestFn) (args : list PyObj) (kwargs : gmap string PyObj)
  (w w1 w2 w3 : World) (hdu : PyObj) (rd bf ti msg : string) :
generate_dir self = None →
call_original original args kwargs w = (Ok hdu, w1) →
prepare_comparison fspath (resolve_baseline_dir self compare fspath)
  (target_filename compare original) hdu
  (default ∅ (kw_writeto_kwargs compare)) w1 = (Ok (rd, bf, ti), w2) →
compare_fits_files bf ti (kw_atol compare)
  (default rtol_default (kw_rtol compare)) w2 = (Ok (true, msg), w3) →
∃ w4,
  item_function_wrapper self compare fspath original args kwargs w
  = (Ok py_none, w4)
  ∧ outcome (Ok py_none) = Passed
  ∧ path_exists w4 rd = false
  ∧ (∀ k, under (resolve w4 rd) k = true →
          files w4 !! k = None ∧ k ∉ dirs w4).
Proof.
intros Hgen Hbody Hprep Hcmp.
pose proof (steady_compare_fits_files _ _ _ _ _ _ _ Hcmp) as E23.
apply prepare_comparison_ok in Hprep as Hok. destruct Hok as (Hdir & _ & _).
apply (is_dir_extends _ _ _ E23) in Hdir.
rewrite <- (extends_resolve _ _ _ E23) in Hdir.
destruct (shutil_rmtree_ok _ _ Hdir) as (w4 & Hrm & Hgone & Hunder & _ & Hcwd).
exists w4. split; [|split; [done|split; [done|]]].
- unfold item_function_wrapper. rewrite (bind_ok _ _ _ _ _ Hbody), Hgen.
  erewrite bind_ok; [reflexivity|].
  unfold verify. rewrite (bind_ok _ _ _ _ _ Hprep). cbn [fst snd].
  unfold compare_and_report. by rewrite (bind_ok _ _ _ _ _ Hcmp).
- intros k Hk. apply Hunder. unfold resolve in *. by rewrite <- Hcwd.
Qed.

(** The branch of lines 185-186 that reports: in a verification run
  that reached the comparison, when [compare_fits_files] answers not
  identical the wrapper raises an exception whose message is the report
  it was handed, unchanged; the test is graded failed; and the
  temporary directory, the generated file and the copy of the baseline
  are still on disk.  The report is the one of some pair of files: by
  lines 57-58 these are the two fixed files, not the generated file and
  the baseline. *)
Lemma mismatch_fails_with_report_and_keeps_files
  (self : FITSComparison) (compare : Marker) (fspath : string)
  (original : TestFn) (args : list PyObj) (kwargs : gmap string PyObj)
  (w w1 w2 w3 : World) (hdu : PyObj) (rd bf ti msg : string) :
generate_dir self = None →
call_original original args kwargs w = (Ok hdu, w1) →
prepare_comparison fspath (resolve_baseline_dir self compare fspath)
  (target_filename compare original) hdu
  (default ∅ (kw_writeto_kwargs compare)) w1 = (Ok (rd, bf, ti), w2) →
compare_fits_files bf ti (kw_atol compare)
  (default rtol_default (kw_rtol compare)) w2 = (Ok (false, msg), w3) →
item_function_wrapper self compare fspath original args kwargs w
= (Raise (Exception msg), w3)
∧ outcome (A := PyObj) (Raise (Exception msg)) = Failed (Exception msg)
∧ (∃ ca cb,
     let diff := fits_diff ca cb (default rtol_default (kw_rtol compare)) in
     identical diff = false ∧ msg = report diff)
∧ path_is_dir w3 rd
∧ path_is_file w3 ti
∧ path_is_file w3 bf.
Proof.
intros Hgen Hbody Hprep Hcmp.
pose proof (steady_compare_fits_files _ _ _ _ _ _ _ Hcmp) as E23.
apply prepare_comparison_ok in Hprep as Hok.
destruct Hok as (Hdir & Hti & Hbf). unfold path_is_dir, path_is_file.
split; [|split; [done|split; [|split; [|split]]]].
- unfold item_function_wrapper. rewrite (bind_ok _ _ _ _ _ Hbody), Hgen.
  unfold verify. apply bind_raise.
  rewrite (bind_ok _ _ _ _ _ Hprep). cbn [fst snd].
  unfold compare_and_report. by rewrite (bind_ok _ _ _ _ _ Hcmp).
- apply compare_fits_files_inv in Hcmp as (_ & ca & cb & Hid & Hmsg).
  exists ca, cb. by cbv zeta.
- rewrite (extends_resolve _ _ _ E23). by eapply is_dir_extends.
- rewrite (extends_resolve _ _ _ E23). by eapply ext_files.
- rewrite (extends_resolve _ _ _ E23). by eapply ext_files.
Qed.

(** C2, as the code has it: the check for [atol] sits at the head of
  [compare_fits_files], which the wrapper calls last.  In a
  verification run whose preparation succeeded, a marker with [atol]
  makes the wrapper raise [NotImplementedError] with the message
  "atol argument not yet supported" without invoking the comparator;
  by then the temporary directory, the generated file and the copy of
  the baseline have been created, and they stay. *)
Theorem atol_fails_at_comparison_after_io
  (self : FITSComparison) (compare : Marker) (fspath : string)
  (original : TestFn) (args : list PyObj) (kwargs : gmap string PyObj)
  (w w1 w2 : World) (hdu : PyObj) (rd bf ti : string) (a : Tol) :
kw_atol compare = Some a →
generate_dir self = None →
call_original original args kwargs w = (Ok hdu, w1) →
prepare_comparison fspath (resolve_baseline_dir self compare fspath)
  (target_filename compare original) hdu
  (default ∅ (kw_writeto_kwargs compare)) w1 = (Ok (rd, bf, ti), w2) →
item_function_wrapper self compare fspath original args kwargs w
= (Raise (NotImplementedError "atol argument not yet supported"), w2)
∧ outcome (A := PyObj)
    (Raise (NotImplementedError "atol argument not yet supported"))
  = Failed (NotImplementedError "atol argument not yet supported")
∧ no_comparison w1 w2
∧ path_is_dir w2 rd
∧ path_is_file w2 ti
∧ path_is_file w2 bf.
Proof.
intros Hatol Hgen Hbody Hprep.
split; [|split; [done|split]].
- unfold item_function_wrapper. rewrite (bind_ok _ _ _ _ _ Hbody), Hgen.
  unfold verify. apply bind_raise.
  rewrite (bind_ok _ _ _ _ _ Hprep). cbn [fst snd].
  unfold compare_and_report, compare_fits_files. by rewrite Hatol.
- by eapply uncompared_prepare_comparison.
- by eapply prepare_comparison_ok.
Qed.

(** In generation mode [atol] is never looked at. *)
Lemma generate_ignores_atol
  (self : FITSComparison) (compare : Marker) (fspath gd : string)
  (original : TestFn) (args : list PyObj) (kwargs : gmap string PyObj)
  (atol : option Tol) (w : World) :
generate_dir self = Some gd →
item_function_wrapper self
  {| kw_atol := atol; kw_rtol := kw_rtol compare;
     kw_writeto_kwargs := kw_writeto_kwargs compare;
     kw_baseline_dir := kw_baseline_dir compare;
     kw_filename := kw_filename compare |} fspath original args kwargs w
= item_function_wrapper self compare fspath original args kwargs w.
Proof. intros Hgen. unfold item_function_wrapper. by rewrite Hgen. Qed.


End Claims.

(** * Further properties of the plugin *)

(** ** More on the steps *)

Section MoreStepFacts.
Context `{Collaborators}.
Import PosixPath PathFacts.

Lemma os_mkdir_inv p w r w' :
  os_mkdir p w = (r, w') →
  (r = Ok tt ∧ key_exists w (resolve w p) = false
   ∧ w' = set_dirs ({[resolve w p]} ∪ dirs w) w)
  ∨ (∃ e, r = Raise e ∧ w' = w).
Proof.
  unfold os_mkdir. destruct (key_exists _ _) eqn:E.
  - intros [= <- <-]. right. eauto.
  - destruct (bool_decide _); intros [= <- <-]; [by left|right; eauto].
Qed.

(** [tempfile.mkdtemp] makes a directory that did not exist and changes
    nothing else but the count of names drawn. *)
Lemma mkdtemp_loop_fresh n w d w' :
  mkdtemp_loop n w = (Ok d, w') →
  key_exists w (resolve w d) = false
  ∧ files w' = files w
  ∧ dirs w' = {[resolve w d]} ∪ dirs w
  ∧ cwd w' = cwd w ∧ trace w' = trace w ∧ web w' = web w
  ∧ tmp_seq w < tmp_seq w'.
Proof.
  revert w. induction n as [|n IH]; intros w; [done|].
  cbn [mkdtemp_loop]. set (w1 := set_tmp_seq _ w).
  destruct (os_mkdir _ w1) as [r w2] eqn:E.
  apply os_mkdir_inv in E as [(-> & Hfresh & ->)|(e & -> & ->)].
  - intros [= <- <-]. subst w1. cbn. repeat split; try done. lia.
  - destruct e; try done. intros Hrec. apply IH in Hrec.
    destruct Hrec as (Hf & Hfi & Hd & Hc & Ht & Hw & Hs).
    subst w1. cbn in *. repeat split; try done. lia.
Qed.

Lemma mkdtemp_fresh w d w' :
  mkdtemp w = (Ok d, w') →
  key_exists w (resolve w d) = false
  ∧ files w' = files w
  ∧ dirs w' = {[resolve w d]} ∪ dirs w
  ∧ cwd w' = cwd w ∧ trace w' = trace w ++ [EvMkdtemp d] ∧ web w' = web w
  ∧ tmp_seq w < tmp_seq w'.
Proof.
  unfold mkdtemp. intros (d' & w1 & Hloop & Hrest)%bind_ok_inv.
  cbv [bind effect ret] in Hrest. injection Hrest as <- <-.
  apply mkdtemp_loop_fresh in Hloop
    as (Hf & Hfi & Hd & Hc & Ht & Hw & Hs).
  cbn. by rewrite Ht.
Qed.

Lemma put_file_inv p c w u w' :
  put_file p c w = (Ok u, w') →
  w' = set_files (<[resolve w p := c]> (files w)) w.
Proof. unfold put_file. destruct (_ && _); [|done]. by intros [= _ <-]. Qed.

Lemma put_file_raise p c w e w' :
  put_file p c w = (Raise e, w') → e = OSError p ∧ w' = w.
Proof. unfold put_file. destruct (_ && _); [done|]. by intros [= <- <-]. Qed.

Lemma urlopen_read_inv url w c w' :
  urlopen_read url w = (Ok c, w') →
  web w !! url = Some c ∧ w' = log_event (EvUrlopen url) w.
Proof.
  unfold urlopen_read, bind, effect. cbn.
  destruct (web w !! url); [|done]. by intros [= <- <-].
Qed.

(** What a successful [_download_file] leaves behind. *)
Lemma download_file_inv url w p w' :
  _download_file url w = (Ok p, w') →
  ∃ c d, web w !! url = Some c
         ∧ p = join d ["downloaded"]
         ∧ key_exists w (resolve w d) = false
         ∧ files w' = <[resolve w p := c]> (files w)
         ∧ dirs w' = {[resolve w d]} ∪ dirs w
         ∧ cwd w' = cwd w ∧ web w' = web w
         ∧ trace w'
           = trace w ++ [EvUrlopen url; EvMkdtemp d; EvOpenWrite p].
Proof.
  unfold _download_file. intros (c & w1 & Hurl & Hrest)%bind_ok_inv.
  apply urlopen_read_inv in Hurl as [Hweb ->].
  apply bind_ok_inv in Hrest as (d & w2 & Hmk & Hrest).
  apply bind_ok_inv in Hrest as ([] & w3 & Hopen & Hret).
  injection Hret as <- <-.
  apply mkdtemp_fresh in Hmk as (Hf & Hfi & Hd & Hc & Ht & Hw & _).
  unfold open_write in Hopen.
  apply bind_ok_inv in Hopen as ([] & w2' & Hlog & Hput).
  injection Hlog as <-. apply put_file_inv in Hput as ->.
  exists c, d. cbn. unfold resolve in *. cbn in *.
  rewrite Hc, Hfi, Hd, Hw, Ht, <- !app_assoc. by repeat split.
Qed.

(** [compare_fits_files] only reads. *)
Lemma compare_fits_files_frame f1 f2 atol rtol w r w' :
  compare_fits_files f1 f2 atol rtol w = (r, w') →
  files w' = files w ∧ dirs w' = dirs w ∧ cwd w' = cwd w
  ∧ (w' = w
     ∨ w' = log_event (EvFITSDiff "galactic_2d.fits" "equatorial_3d.fits") w).
Proof.
  unfold compare_fits_files. destruct atol as [a|].
  - intros [= <- <-]. split; [done|]. split; [done|]. split; [done|by left].
  - unfold FITSDiff, bind, effect, get_file, ret. cbn.
    repeat case_match; simplify_eq; intros [= <- <-];
      (split; [done|]; split; [done|]; split; [done|by right]).
Qed.

Lemma put_file_ok_cond p c w u w' :
  put_file p c w = (Ok u, w') →
  dirname (resolve w p) ∈ dirs w ∧ resolve w p ∉ dirs w.
Proof.
  unfold put_file. destruct (_ && _) eqn:E; [|done]. intros _.
  apply andb_true_iff in E as [Hd Hn%negb_true_iff].
  by apply bool_decide_eq_true in Hd; apply bool_decide_eq_false in Hn.
Qed.

Lemma bind_raise_inv {A B} (c : M A) (k : A → M B) w e w' :
  bind c k w = (Raise e, w') →
  c w = (Raise e, w') ∨ ∃ a w1, c w = (Ok a, w1) ∧ k a w1 = (Raise e, w').
Proof.
  unfold bind. destruct (c w) as [[a|e'] w1]; [right; eauto|].
  intros [= <- <-]. by left.
Qed.

(** A downloaded baseline exists. *)
Lemma download_file_exists url w p w' :
  _download_file url w = (Ok p, w') → path_exists w' p = true.
Proof.
  intros (c & d & _ & _ & _ & Hfiles & _ & Hcwd & _)%download_file_inv.
  unfold path_exists, key_exists, resolve. rewrite Hcwd, Hfiles.
  fold (resolve w p). rewrite lookup_insert_eq.
  by rewrite bool_decide_eq_true_2 by eauto.
Qed.

(** The errors of [shutil.copyfile]. *)
Lemma shutil_copyfile_raise src dst w e w' :
  shutil_copyfile src dst w = (Raise e, w') →
  e = SameFileError src dst ∨ e = OSError src ∨ e = OSError dst.
Proof.
  unfold shutil_copyfile.
  intros [Hlog|([] & w1 & _ & Hrest)]%bind_raise_inv; [done|].
  apply bind_raise_inv in Hrest as [Hask|(same & w2 & _ & Hrest)]; [done|].
  destruct same; [injection Hrest as <- _; by left|].
  apply bind_raise_inv in Hrest as [Hget|(c & w3 & _ & Hput)].
  - unfold get_file in Hget. destruct (files w2 !! _); [done|].
    injection Hget as <- _. right. by left.
  - apply put_file_raise in Hput as [-> _]. right. by right.
Qed.

Lemma hdu_writeto_inv hdu p kw w u w' :
  hdu_writeto hdu p kw w = (Ok u, w') →
  ∃ c, hdu_bytes hdu kw = Some c
       ∧ w' = set_files (<[resolve w p := c]> (files w))
                (log_event (EvWriteto p) w).
Proof.
  unfold hdu_writeto. intros ([] & w1 & Hlog & Hput)%bind_ok_inv.
  injection Hlog as <-. destruct (hdu_bytes hdu kw) as [c|]; [|done].
  apply bind_ok_inv in Hput as (present & w1' & [= <- <-] & Hput).
  destruct (_ && _); [done|].
  apply put_file_inv in Hput. eauto.
Qed.

(** What a successful [save_result] leaves behind. *)
Lemma save_result_inv hdu fn kw w rd ti w' :
  save_result hdu fn kw w = (Ok (rd, ti), w') →
  key_exists w (resolve w rd) = false
  ∧ ti = resolve w (join rd [fn])
  ∧ cwd w' = cwd w
  ∧ dirs w' = {[resolve w rd]} ∪ dirs w
  ∧ trace w' = trace w ++ [EvMkdtemp rd; EvWriteto ti]
  ∧ ∃ c, hdu_bytes hdu kw = Some c
         ∧ files w' = <[resolve w ti := c]> (files w).
Proof.
  unfold save_result. intros (d & w1 & Hmk & Hrest)%bind_ok_inv.
  apply bind_ok_inv in Hrest as (t & w2 & Habs & Hrest).
  apply bind_ok_inv in Hrest as ([] & w3 & Hwr & Hret).
  injection Hret as <- <- <-. injection Habs as <- <-.
  apply mkdtemp_fresh in Hmk as (Hf & Hfi & Hd & Hc & Ht & Hw & _).
  apply hdu_writeto_inv in Hwr as (c & Hc' & ->).
  unfold resolve in *. cbn. rewrite Hc, Hfi, Hd, Ht, <- !app_assoc.
  repeat split; try done. eauto.
Qed.

Lemma shutil_rmtree_eq d w :
  resolve w d ∈ dirs w →
  shutil_rmtree d w
  = (Ok tt,
     set_dirs (filter (λ x, x ≠ resolve w d ∧ under (resolve w d) x = false)
                 (dirs w))
       (set_files (filter (λ kv, under (resolve w d) kv.1 = false) (files w))
          (log_event (EvRmtree d) w))).
Proof.
  intros Hd. unfold shutil_rmtree, bind, effect. cbn.
  rewrite resolve_log. by rewrite (bool_decide_eq_true_2 _ Hd).
Qed.

Lemma os_makedirs_inv d w r w' :
  os_makedirs d w = (r, w') →
  (∃ e, r = Raise e ∧ w' = log_event (EvMakedirs d) w)
  ∨ (r = Ok tt
     ∧ w' = set_dirs ({[resolve w d]} ∪ list_to_set (ancestors (resolve w d))
                      ∪ dirs w) (log_event (EvMakedirs d) w)).
Proof.
  unfold os_makedirs, bind, effect. cbn. rewrite resolve_log.
  destruct (str_eqb d ""); [intros [= <- <-]; left; eauto|].
  destruct (key_exists _ _); [intros [= <- <-]; left; eauto|].
  destruct (bool_decide _); intros [= <- <-]; [left; eauto|by right].
Qed.

(** The end of the generation branch: the write and the skip. *)
Lemma generate_tail gd fn hdu kw msg w r w' :
  (target <~ os_path_abspath (join gd [fn]) ;;
   hdu_writeto hdu target kw ;;;
   pytest_skip (A := unit) msg) w = (r, w') →
  let target := resolve w (join gd [fn]) in
  w' = log_event (EvWriteto target) w
  ∨ ∃ c, hdu_bytes hdu kw = Some c
         ∧ r = Raise (Skipped msg)
         ∧ w' = set_files (<[resolve w target := c]> (files w))
                  (log_event (EvWriteto target) w).
Proof.
  rewrite (bind_ok _ _ _ _ _ (os_path_abspath_eq _ _)). intros Hrun target.
  fold target in Hrun.
  destruct (hdu_writeto hdu target kw w) as [[[]|e] w1] eqn:E.
  - rewrite (bind_ok _ _ _ _ _ E) in Hrun. injection Hrun as <- <-.
    apply hdu_writeto_inv in E as (c & Hc & ->). right. eauto.
  - rewrite (bind_raise _ _ _ _ _ E) in Hrun. injection Hrun as <- <-.
    left. unfold hdu_writeto, bind, effect, ask in E.
    destruct (hdu_bytes hdu kw).
    + destruct (_ && _); [by injection E as _ <-|].
      destruct (put_file target c _) as [[[]|e'] w2] eqn:Ep; [done|].
      apply put_file_raise in Ep as [_ ->]. by injection E as _ <-.
    + by injection E as _ <-.
Qed.

End MoreStepFacts.

(** ** Downloads, configuration and failing tests *)

Section Further.
Context `{Collaborators}.
Import PosixPath PathFacts.

(** X1: when [_download_file] succeeds, the URL was served, the path it
    returns is [downloaded] inside a directory that did not exist
    before, that path now reads as the body of the URL, no other file
    changed, and the only events are the URL being opened, the directory
    being made and the file being written. *)
Theorem download_file_stores_the_body (url p : string) (w w' : World) :
  _download_file url w = (Ok p, w') →
  ∃ c d,
    web w !! url = Some c
    ∧ p = join d ["downloaded"]
    ∧ path_exists w d = false
    ∧ resolve w' d ∈ dirs w'
    ∧ get_file p w' = (Ok c, w')
    ∧ (∀ k, k ≠ resolve w p → files w' !! k = files w !! k)
    ∧ trace w' = trace w ++ [EvUrlopen url; EvMkdtemp d; EvOpenWrite p].
Proof.
  intros (c & d & Hweb & Hp & Hfresh & Hfiles & Hdirs & Hcwd & _ & Htr)
    %download_file_inv.
  exists c, d. split; [done|]. split; [done|]. split; [done|].
  split; [|split; [|split; [|done]]].
  - unfold resolve. rewrite Hcwd, Hdirs. fold (resolve w d).
    by apply elem_of_union_l, elem_of_singleton.
  - unfold get_file, resolve. rewrite Hcwd, Hfiles. fold (resolve w p).
    by rewrite lookup_insert_eq.
  - intros k Hk. rewrite Hfiles. by rewrite lookup_insert_ne.
Qed.

(** X2: when the URL cannot be opened, [_download_file] raises the
    transport error at once: the world is the one before the call with
    the attempt logged, so no temporary directory was made and no file
    written. *)
Theorem download_file_unreachable_url (url : string) (w : World) :
  web w !! url = None →
  _download_file url w = (Raise (URLError url), log_event (EvUrlopen url) w).
Proof.
  intros Hweb. unfold _download_file. apply bind_raise.
  unfold urlopen_read, bind, effect. cbn. by rewrite Hweb.
Qed.

(** X3: a baseline that was downloaded is never reported missing: after
    a remote [find_baseline] the reference exists, and whatever
    [copy_baseline] raises then is not the "FITS file not found"
    exception (nor any other [Exception]). *)
Theorem remote_baseline_is_never_missing
    (fspath bd fn ref : string) (w w' : World) :
  baseline_remote bd = true →
  find_baseline fspath bd fn w = (Ok ref, w') →
  path_exists w' ref = true
  ∧ ∀ rd ti e w'',
      copy_baseline ref rd ti fn w' = (Raise e, w'') → ∀ m, e ≠ Exception m.
Proof.
  intros Hr Hfind. unfold find_baseline in Hfind. rewrite Hr in Hfind.
  apply download_file_exists in Hfind as Hex. split; [done|].
  intros rd ti e w'' Hcopy m ->. unfold copy_baseline in Hcopy.
  rewrite (bind_ok _ _ _ _ _ (os_path_exists_eq _ _)), Hex in Hcopy.
  cbn [negb] in Hcopy.
  apply bind_raise_inv in Hcopy as [Hcopy|(bf & w1 & _ & Hcopy)]; [done|].
  apply bind_raise_inv in Hcopy as [Hcopy|(u & w2 & _ & Hcopy)]; [|done].
  by apply shutil_copyfile_raise in Hcopy as [?|[?|?]].
Qed.

(** X4: [pytest_configure] registers a plugin if and only if [--fits] is
    set or a generate path is given; a baseline path alone enables
    nothing, and then the call changes nothing at all. *)
Theorem configure_registers_iff_enabled (cfg : Config) (w : World) :
  (opt_fits cfg = false ∧ opt_fits_generate_path cfg = None
   ↔ registered (pytest_configure cfg w).2 = registered w)
  ∧ (opt_fits cfg = false → opt_fits_generate_path cfg = None →
     pytest_configure cfg w = (Ok tt, w)).
Proof.
  assert (∀ l (x : FITSComparison), l ++ [x] ≠ l) as Hne.
  { intros l x E. apply (f_equal length) in E.
    rewrite length_app in E. cbn in E. lia. }
  destruct cfg as [[] [g|] [b|]]; cbn; split; try done;
    (split; [by intros [? ?]|]); intros E; by apply Hne in E.
Qed.

(** X5: an exception raised by the test itself passes through the
    wrapper unchanged, in verification and in generation mode alike, and
    the wrapper does nothing after it: the world is the one the test
    left. *)
Theorem test_error_propagates
    (self : FITSComparison) (compare : Marker) (fspath : string)
    (original : TestFn) (args : list PyObj) (kwargs : gmap string PyObj)
    (w w1 : World) (e : PyExn) :
  call_original original args kwargs w = (Raise e, w1) →
  item_function_wrapper self compare fspath original args kwargs w
  = (Raise e, w1).
Proof.
  intros Hbody. unfold item_function_wrapper. by apply bind_raise.
Qed.

(** ** Verification runs *)

(** X6: [save_result] works in a directory that did not exist before
    the call; it adds that directory and the one file holding the
    object's bytes, and changes no other file or directory. *)
Theorem save_result_uses_a_fresh_directory
    (hdu : PyObj) (fn rd ti : string) (kw : gmap string PyObj)
    (w w' : World) :
  save_result hdu fn kw w = (Ok (rd, ti), w') →
  path_exists w rd = false
  ∧ path_is_dir w' rd
  ∧ ti = resolve w (join rd [fn])
  ∧ dirs w' = {[resolve w rd]} ∪ dirs w
  ∧ (∃ c, hdu_bytes hdu kw = Some c
          ∧ files w' = <[resolve w ti := c]> (files w))
  ∧ trace w' = trace w ++ [EvMkdtemp rd; EvWriteto ti].
Proof.
  intros Hsave.
  pose proof (save_result_inv _ _ _ _ _ _ _ Hsave)
    as (Hfresh & Hti & Hcwd & Hdirs & Htr & Hfiles).
  apply save_result_ok in Hsave as [Hdir _].
  split; [exact Hfresh|]. split; [exact Hdir|]. split; [exact Hti|].
  split; [exact Hdirs|]. split; [exact Hfiles|exact Htr].
Qed.

(** X7: in a verification run, when the writer refuses the object the
    test returned, the wrapper raises the writer's error right after
    the attempt; the temporary directory made for the run, which did
    not exist before, is left on disk, and the baseline is never looked
    up. *)
Theorem unwritable_result_leaves_the_tmpdir
    (self : FITSComparison) (compare : Marker) (fspath rd : string)
    (original : TestFn) (args : list PyObj) (kwargs : gmap string PyObj)
    (w w1 w2 : World) (hdu : PyObj) :
  generate_dir self = None →
  call_original original args kwargs w = (Ok hdu, w1) →
  hdu_bytes hdu (default ∅ (kw_writeto_kwargs compare)) = None →
  mkdtemp w1 = (Ok rd, w2) →
  let target := resolve w2 (join rd [target_filename compare original]) in
  item_function_wrapper self compare fspath original args kwargs w
  = (Raise WriterError, log_event (EvWriteto target) w2)
  ∧ path_exists w1 rd = false
  ∧ path_is_dir (log_event (EvWriteto target) w2) rd
  ∧ trace (log_event (EvWriteto target) w2)
    = trace w1 ++ [EvMkdtemp rd; EvWriteto target].
Proof.
  intros Hgen Hbody Hnone Hmk target.
  pose proof (mkdtemp_ok _ _ _ Hmk) as Hdir.
  pose proof (mkdtemp_fresh _ _ _ Hmk) as (Hfresh & _ & _ & _ & Htr & _).
  split; [|split; [done|split; [done|]]].
  - unfold item_function_wrapper. rewrite (bind_ok _ _ _ _ _ Hbody), Hgen.
    unfold verify, prepare_comparison, save_result. do 3 apply bind_raise.
    rewrite (bind_ok _ _ _ _ _ Hmk).
    rewrite (bind_ok _ _ _ _ _ (os_path_abspath_eq _ _)).
    apply bind_raise. unfold hdu_writeto, bind, effect.
    by rewrite Hnone.
  - cbn. by rewrite Htr, <- app_assoc.
Qed.

(** X8: when the wrapper reports a missing baseline, the baseline
    directory was a local one, and the file named in the message is on
    disk afterwards, holding the bytes of the object the test returned,
    inside the temporary directory that is kept. *)
Theorem missing_baseline_keeps_the_generated_file
    (self : FITSComparison) (compare : Marker) (fspath : string)
    (original : TestFn) (args : list PyObj) (kwargs : gmap string PyObj)
    (w w1 w2 w3 : World) (hdu : PyObj) (rd ti ref : string) :
  generate_dir self = None →
  call_original original args kwargs w = (Ok hdu, w1) →
  save_result hdu (target_filename compare original)
    (default ∅ (kw_writeto_kwargs compare)) w1 = (Ok (rd, ti), w2) →
  find_baseline fspath (resolve_baseline_dir self compare fspath)
    (target_filename compare original) w2 = (Ok ref, w3) →
  path_exists w3 ref = false →
  let final :=
    (item_function_wrapper self compare fspath original args kwargs w).2 in
  baseline_remote (resolve_baseline_dir self compare fspath) = false
  ∧ path_is_dir final rd
  ∧ ∃ c, hdu_bytes hdu (default ∅ (kw_writeto_kwargs compare)) = Some c
         ∧ get_file ti final = (Ok c, final).
Proof.
  intros Hgen Hbody Hsave Hfind Hmiss final.
  assert (item_function_wrapper self compare fspath original args kwargs w
          = (Raise (Exception (missing_baseline_msg ti)),
             log_event (EvExists ref) w3)) as Hrun.
  { unfold item_function_wrapper.
    rewrite (bind_ok _ _ _ _ _ Hbody), Hgen.
    unfold verify. do 2 apply bind_raise. unfold prepare_comparison.
    rewrite (bind_ok _ _ _ _ _ Hsave). cbn [fst snd].
    rewrite (bind_ok _ _ _ _ _ Hfind). apply bind_raise.
    unfold copy_baseline.
    by rewrite (bind_ok _ _ _ _ _ (os_path_exists_eq _ _)), Hmiss. }
  subst final. rewrite Hrun. cbn [snd]. clear Hrun.
  destruct (baseline_remote _) eqn:Hr.
  { unfold find_baseline in Hfind. rewrite Hr in Hfind.
    apply download_file_exists in Hfind. congruence. }
  unfold find_baseline in Hfind. rewrite Hr in Hfind.
  injection Hfind as _ <-.
  apply save_result_ok in Hsave as [Hdir (c & Hc & Hti)].
  split; [done|]. split; [done|]. exists c. split; [done|].
  unfold get_file. rewrite resolve_log. cbn [files log_event].
  by rewrite Hti.
Qed.

(** X9: [compare_fits_files] only reads: whatever its arguments and
    whatever it returns or raises, files, directories and working
    directory are as before, and the only event it can add is one
    [FITSDiff] of [galactic_2d.fits] against [equatorial_3d.fits]. *)
Theorem compare_fits_files_only_reads
    (f1 f2 : string) (atol : option Tol) (rtol : Tol) (w : World) :
  let w' := (compare_fits_files f1 f2 atol rtol w).2 in
  files w' = files w ∧ dirs w' = dirs w ∧ cwd w' = cwd w
  ∧ (trace w' = trace w
     ∨ trace w'
       = trace w ++ [EvFITSDiff "galactic_2d.fits" "equatorial_3d.fits"]).
Proof.
  destruct (compare_fits_files f1 f2 atol rtol w) as [r w'] eqn:E. cbn.
  apply compare_fits_files_frame in E as (Hf & Hd & Hc & [->| ->]);
    repeat split; try done; [by left|by right].
Qed.

(** X10: a verification run without [atol] that reaches the comparison
    needs [galactic_2d.fits] and [equatorial_3d.fits] in the working
    directory: if either is not a file there, the wrapper raises the
    error of opening it, whatever the generated file and the baseline
    are, and the temporary directory is kept. *)
Theorem comparison_needs_the_two_fixed_files
    (self : FITSComparison) (compare : Marker) (fspath : string)
    (original : TestFn) (args : list PyObj) (kwargs : gmap string PyObj)
    (w w1 w2 : World) (hdu : PyObj) (rd bf ti : string) :
  generate_dir self = None →
  kw_atol compare = None →
  call_original original args kwargs w = (Ok hdu, w1) →
  prepare_comparison fspath (resolve_baseline_dir self compare fspath)
    (target_filename compare original) hdu
    (default ∅ (kw_writeto_kwargs compare)) w1 = (Ok (rd, bf, ti), w2) →
  files w2 !! resolve w2 "galactic_2d.fits" = None
  ∨ files w2 !! resolve w2 "equatorial_3d.fits" = None →
  let w3 :=
    log_event (EvFITSDiff "galactic_2d.fits" "equatorial_3d.fits") w2 in
  ∃ f, (f = "galactic_2d.fits" ∨ f = "equatorial_3d.fits")
       ∧ item_function_wrapper self compare fspath original args kwargs w
         = (Raise (OSError f), w3)
       ∧ path_is_dir w3 rd
       ∧ path_is_file w3 ti
       ∧ path_is_file w3 bf.
Proof.
  intros Hgen Hatol Hbody Hprep Hmissing w3.
  apply prepare_comparison_ok in Hprep as Hok.
  assert (∃ f, (f = "galactic_2d.fits" ∨ f = "equatorial_3d.fits")
               ∧ compare_fits_files bf ti (kw_atol compare)
                   (default rtol_default (kw_rtol compare)) w2
                 = (Raise (OSError f), w3)) as (f & Hf & Hcmp).
  { rewrite Hatol. unfold compare_fits_files, FITSDiff, bind, effect,
      get_file. cbn. rewrite !resolve_log. fold w3.
    destruct (files w2 !! resolve w2 "galactic_2d.fits") as [ca|] eqn:Ea.
    - destruct Hmissing as [?|Eb]; [done|].
      change (files w3 !! resolve w3 "equatorial_3d.fits")
        with (files w2 !! resolve w2 "equatorial_3d.fits").
      rewrite Eb. eauto.
    - eauto. }
  exists f. split; [done|]. split; [|done].
  unfold item_function_wrapper. rewrite (bind_ok _ _ _ _ _ Hbody), Hgen.
  unfold verify. apply bind_raise.
  rewrite (bind_ok _ _ _ _ _ Hprep). cbn [fst snd].
  unfold compare_and_report. by apply bind_raise.
Qed.

(** X11: a verification run that passes removes the temporary
    directory and what lies below it, and nothing else: every other
    file, the stored baseline among them, and every other directory
    are as they were before the comparison. *)
Theorem passing_run_removes_only_the_tmpdir
    (self : FITSComparison) (compare : Marker) (fspath : string)
    (original : TestFn) (args : list PyObj) (kwargs : gmap string PyObj)
    (w w1 w2 w3 : World) (hdu : PyObj) (rd bf ti msg : string) :
  generate_dir self = None →
  call_original original args kwargs w = (Ok hdu, w1) →
  prepare_comparison fspath (resolve_baseline_dir self compare fspath)
    (target_filename compare original) hdu
    (default ∅ (kw_writeto_kwargs compare)) w1 = (Ok (rd, bf, ti), w2) →
  compare_fits_files bf ti (kw_atol compare)
    (default rtol_default (kw_rtol compare)) w2 = (Ok (true, msg), w3) →
  ∃ w4,
    item_function_wrapper self compare fspath original args kwargs w
    = (Ok py_none, w4)
    ∧ path_exists w4 rd = false
    ∧ (∀ k, under (resolve w2 rd) k = false →
            files w4 !! k = files w2 !! k)
    ∧ (∀ k, k ≠ resolve w2 rd → under (resolve w2 rd) k = false →
            (k ∈ dirs w4 ↔ k ∈ dirs w2))
    ∧ trace w4 = trace w3 ++ [EvRmtree rd].
Proof.
  intros Hgen Hbody Hprep Hcmp.
  pose proof (steady_compare_fits_files _ _ _ _ _ _ _ Hcmp) as E23.
  pose proof (compare_fits_files_frame _ _ _ _ _ _ _ Hcmp)
    as (Hf & Hd & Hc & _).
  apply prepare_comparison_ok in Hprep as Hok. destruct Hok as ([Hin Hno] & _).
  assert (resolve w3 rd = resolve w2 rd) as HK
    by (unfold resolve; by rewrite Hc).
  assert (resolve w3 rd ∈ dirs w3) as Hin3 by (by rewrite HK, Hd).
  eexists. split; [|split; [|split; [|split]]].
  - unfold item_function_wrapper. rewrite (bind_ok _ _ _ _ _ Hbody), Hgen.
    erewrite bind_ok; [reflexivity|].
    unfold verify. rewrite (bind_ok _ _ _ _ _ Hprep). cbn [fst snd].
    unfold compare_and_report. rewrite (bind_ok _ _ _ _ _ Hcmp). cbn [fst].
    by apply shutil_rmtree_eq.
  - unfold path_exists, key_exists, resolve. cbn.
    fold (resolve w3 rd). rewrite HK, Hf, Hd.
    apply orb_false_iff. split; apply bool_decide_eq_false.
    + intros [c Hc']. apply map_lookup_filter_Some in Hc' as [Hc' _].
      congruence.
    + intros [[Hne _] _]%elem_of_filter. by apply Hne.
  - intros k Hk. cbn. rewrite HK, Hf, map_lookup_filter.
    destruct (files w2 !! k) as [c|]; [|done]. cbn.
    by rewrite option_guard_True.
  - intros k Hne Hk. cbn. rewrite HK, Hd, elem_of_filter.
    split; [by intros [_ ?]|by intros ?].
  - done.
Qed.

(** ** Generation runs, the setup hook and baseline directories *)

(** X12: whatever a generation run ends in, after the test has returned
    it touches one file at most, the target
    [<generate_dir>/<filename>]; it removes no directory, opens no URL,
    draws no temporary name, and its only events are the existence
    check and the creation of the generate directory and the write of
    the target: the baseline and the comparator are never involved. *)
Theorem generation_touches_only_its_target
    (self : FITSComparison) (compare : Marker) (fspath gd : string)
    (original : TestFn) (args : list PyObj) (kwargs : gmap string PyObj)
    (w w1 w' : World) (hdu : PyObj) (r : PyResult PyObj) :
  generate_dir self = Some gd →
  call_original original args kwargs w = (Ok hdu, w1) →
  item_function_wrapper self compare fspath original args kwargs w
  = (r, w') →
  let target := resolve w1 (join gd [target_filename compare original]) in
  (∀ k, k ≠ resolve w1 target → files w' !! k = files w1 !! k)
  ∧ dirs w1 ⊆ dirs w'
  ∧ web w' = web w1
  ∧ tmp_seq w' = tmp_seq w1
  ∧ ∃ evs, trace w' = trace w1 ++ evs
           ∧ Forall (λ e, e ∈ [EvExists gd; EvMakedirs gd; EvWriteto target])
               evs.
Proof.
  intros Hgen Hbody Hrun target.
  unfold item_function_wrapper in Hrun.
  rewrite (bind_ok _ _ _ _ _ Hbody), Hgen in Hrun.
  set (fn := target_filename compare original) in *.
  set (kw := default ∅ (kw_writeto_kwargs compare)) in *.
  assert (∃ r', generate gd fn hdu kw w1 = (r', w')) as [r' Hg].
  { unfold bind in Hrun. destruct (generate gd fn hdu kw w1) as [[u|e] wf].
    - injection Hrun as _ <-. eauto.
    - injection Hrun as _ <-. eauto. }
  clear Hrun. unfold generate in Hg.
  rewrite (bind_ok _ _ _ _ _ (os_path_exists_eq _ _)) in Hg.
  set (wa := log_event (EvExists gd) w1) in *.
  assert (∃ wb,
            (wb = wa
             ∨ wb = log_event (EvMakedirs gd) wa
             ∨ wb = set_dirs ({[resolve wa gd]}
                              ∪ list_to_set (ancestors (resolve wa gd))
                              ∪ dirs wa) (log_event (EvMakedirs gd) wa))
            ∧ (w' = wb
               ∨ w' = log_event (EvWriteto target) wb
               ∨ ∃ c, w' = set_files (<[resolve w1 target := c]> (files wb))
                             (log_event (EvWriteto target) wb)))
    as (wb & Hwb & Hw').
  { destruct (path_exists w1 gd); cbn [negb] in Hg.
    - rewrite (bind_ok _ _ _ tt wa) in Hg by done.
      apply generate_tail in Hg as [->|(c & _ & _ & ->)];
        exists wa; (split; [by left|]); right; [by left|right; eauto].
    - destruct (os_makedirs gd wa) as [r2 wb] eqn:Em.
      apply os_makedirs_inv in Em as Hm.
      destruct Hm as [(e & -> & ->)|[-> ->]].
      + rewrite (bind_raise _ _ _ _ _ Em) in Hg. injection Hg as _ <-.
        eexists. split; [right; by left|by left].
      + rewrite (bind_ok _ _ _ _ _ Em) in Hg.
        apply generate_tail in Hg as [->|(c & _ & _ & ->)];
          (eexists; split; [right; by right|]); right;
          [by left|right; eauto]. }
  destruct Hwb as [->|[->| ->]]; destruct Hw' as [->|[->|[c ->]]]; subst wa;
    cbn; (split; [intros k Hk; by rewrite ?lookup_insert_ne by done|]);
    (split; [set_solver|]); (split; [done|]); (split; [done|]);
    rewrite <- ?app_assoc; (eexists; split; [reflexivity|]);
    repeat (apply Forall_cons; split; [set_solver|]); by apply Forall_nil.
Qed.


(** X14: for a test carrying the marker, the setup hook installs the
    wrapper and changes nothing else.  Outside a class only [item.obj]
    changes; in a class only the class attribute named after the test
    function changes, every other attribute and [item.obj] stay.  The
    wrapper installed runs [item_function_wrapper] with this plugin,
    this marker, the test's file and the test function as collected. *)
Theorem setup_with_marker_installs_the_wrapper
    (self : FITSComparison) (item : Item) (compare : Marker) :
  keywords item !! "fits_compare" = Some compare →
  let item' := pytest_runtest_setup self item in
  let wrapper := FitsWrapper self compare (fspath item) (function item) in
  keywords item' = keywords item
  ∧ function item' = function item
  ∧ fspath item' = fspath item
  ∧ (cls item = None → obj item' = wrapper ∧ cls item' = None)
  ∧ (∀ attrs, cls item = Some attrs →
       obj item' = obj item
       ∧ ∃ attrs', cls item' = Some attrs'
                   ∧ attrs' !! fn_name (function item) = Some wrapper
                   ∧ ∀ n, n ≠ fn_name (function item) →
                          attrs' !! n = attrs !! n)
  ∧ ∀ args kwargs,
      call wrapper args kwargs
      = item_function_wrapper self compare (fspath item) (function item)
          args kwargs.
Proof.
  intros Hm item' wrapper. subst item'. unfold pytest_runtest_setup.
  rewrite Hm. destruct (cls item) as [attrs|] eqn:Hcls; cbn.
  - split; [done|]. split; [done|]. split; [done|]. split; [done|].
    split; [|done]. intros ? [= <-]. split; [done|].
    eexists. split; [done|]. split; [by rewrite lookup_insert_eq|].
    intros n Hn. by rewrite lookup_insert_ne.
  - by repeat split.
Qed.

(** X15: a marker [baseline_dir] that is an absolute path is used as it
    is: it is not joined to the directory of the test file, it is
    classified local, and the baseline is looked up at
    [<baseline_dir>/<filename>] wherever the test file lies. *)
Theorem absolute_marker_dir_is_kept
    (self : FITSComparison) (compare : Marker)
    (fspath d filename : string) (w : World) :
  kw_baseline_dir compare = Some d →
  isabs d = true →
  resolve_baseline_dir self compare fspath = d
  ∧ baseline_remote d = false
  ∧ find_baseline fspath d filename w
    = (Ok (abspath (cwd w) (join d [filename])), w).
Proof.
  intros Hd Habs. pose proof (isabs_not_http _ Habs) as Hloc.
  destruct (isabs_cons _ Habs) as [rest ->].
  assert (∀ a, join_step a (String sep rest) = String sep rest) as Hjoin
    by done.
  split; [|split; [done|]].
  - unfold resolve_baseline_dir. rewrite Hd. cbn. apply Hjoin.
  - unfold find_baseline, baseline_remote. rewrite Hloc.
    cbn [join fold_left]. by rewrite Hjoin.
Qed.

(** X16: a baseline path given on the command line is resolved against
    the directory pytest was started in, once, at configuration time.
    For every test whose marker gives no [baseline_dir], the wrapper
    then takes this absolute directory as it is: it is always
    classified local, also when the option was a URL, and the baseline
    is looked up at [<that directory>/<filename>] wherever the test
    file lies and whatever the working directory is by then. *)
Theorem configured_baseline_path_is_absolute_and_local
    (cfg : Config) (b : string) (w : World) :
  opt_fits cfg = true →
  opt_fits_generate_path cfg = None →
  opt_fits_baseline_path cfg = Some b →
  isabs (cwd w) = true →
  ∃ p w',
    pytest_configure cfg w = (Ok tt, w')
    ∧ registered w' = registered w ++ [p]
    ∧ generate_dir p = None
    ∧ ∀ (compare : Marker) (fspath filename : string) (w2 : World),
        kw_baseline_dir compare = None →
        resolve_baseline_dir p compare fspath = abspath (cwd w) b
        ∧ baseline_remote (resolve_baseline_dir p compare fspath) = false
        ∧ find_baseline fspath (resolve_baseline_dir p compare fspath)
            filename w2
          = (Ok (abspath (cwd w2) (join (abspath (cwd w) b) [filename])),
             w2).
Proof.
  intros Hfits Hgen Hbase Hcwd. destruct cfg as [fits g bo]. cbn in *.
  subst fits g bo. unfold pytest_configure. cbn.
  eexists. eexists. split; [reflexivity|]. cbn.
  split; [done|]. split; [done|].
  intros compare fspath filename w2 Hno.
  pose proof (isabs_abspath _ b Hcwd) as Habs.
  pose proof (isabs_not_http _ Habs) as Hloc.
  unfold resolve_baseline_dir. rewrite Hno. cbn. unfold resolve.
  split; [done|]. split; [done|].
  unfold find_baseline, baseline_remote. rewrite Hloc.
  destruct (isabs_cons _ Habs) as [rest Hrest]. rewrite Hrest. done.
Qed.

End Further.

(** * Concrete runs *)

#[local] Existing Instance Sample.collab.
Import PosixPath Sample.

(** C9 at a collected test without markers. *)
Lemma setup_without_marker_witness :
  keywords item_unmarked !! "fits_compare" = None
  ∧ pytest_runtest_setup plugin_verify item_unmarked = item_unmarked.
Proof.
  assert (keywords item_unmarked !! "fits_compare" = None) as h
    by reflexivity.
  split; [exact h|].
  exact (proj1 (setup_without_marker_is_passthrough plugin_verify
                  item_unmarked h)).
Defined.

(** C8, the counterexample: a URL given as [--fits-baseline-path] is
    not used as it is: [pytest_configure] makes it a path below the
    working directory, the wrapper classifies it local, and the run
    looks the baseline up on the file system and reports it missing,
    without opening the URL, which does serve it.  And a local
    [--fits-baseline-path=ref] is looked up under the working directory
    [/work], not under the directory [/proj/tests] of the test file. *)
Lemma global_baseline_dir_is_local_and_absolute :
  let p := {| config := cfg_baseline_url;
              baseline_dir := Some "/work/https:/example.org/ref";
              generate_dir := None |} in
  let run := item_function_wrapper p marker test_path test_img [] ∅
               world_web in
  registered (pytest_configure cfg_baseline_url world).2 = [p]
  ∧ resolve_baseline_dir p marker test_path = "/work/https:/example.org/ref"
  ∧ baseline_remote (resolve_baseline_dir p marker test_path) = false
  ∧ web world_web !! "https://example.org/ref/test_img.fits"
    = Some (bytes_of "IMG")
  ∧ run.1 = Raise (Exception (missing_baseline_msg "/tmp/tmp0/test_img.fits"))
  ∧ trace run.2
    = [EvMkdtemp "/tmp/tmp0"; EvWriteto "/tmp/tmp0/test_img.fits";
       EvExists "/work/https:/example.org/ref/test_img.fits"]
  ∧ registered (pytest_configure cfg_baseline world).2 = [plugin_global]
  ∧ dirname test_path = "/proj/tests"
  ∧ find_baseline test_path
      (resolve_baseline_dir plugin_global marker test_path) "test_img.fits"
      world
    = (Ok "/work/ref/test_img.fits", world).
Proof. vm_compute. repeat split. Qed.

(** C8 as amended, at the plugin that [--fits-baseline-path=ref]
    registers: a marker that names its own directory [mine] wins over
    the global directory and is looked up next to the test file; a
    marker without directory gets the global directory, as it is. *)
Lemma baseline_location_witness :
  isabs test_path = true
  ∧ (∀ g, baseline_dir plugin_global = Some g → isabs g = true)
  ∧ registered (pytest_configure cfg_baseline world).2 = [plugin_global]
  ∧ resolve_baseline_dir plugin_global marker_mine test_path
    = "/proj/tests/mine"
  ∧ find_baseline test_path
      (resolve_baseline_dir plugin_global marker_mine test_path)
      "test_img.fits" world
    = (Ok "/proj/tests/mine/test_img.fits", world)
  ∧ resolve_baseline_dir plugin_global marker test_path = "/work/ref"
  ∧ baseline_remote (resolve_baseline_dir plugin_global marker test_path)
    = false
  ∧ find_baseline test_path
      (resolve_baseline_dir plugin_global marker test_path)
      "test_img.fits" world
    = (Ok "/work/ref/test_img.fits", world).
Proof.
  assert (isabs test_path = true) as h1 by reflexivity.
  assert (∀ g, baseline_dir plugin_global = Some g → isabs g = true) as h2
    by (intros g [= <-]; reflexivity).
  assert (registered (pytest_configure cfg_baseline world).2
          = [plugin_global]) as h3 by (vm_compute; reflexivity).
  split; [exact h1|]. split; [exact h2|]. split; [exact h3|].
  destruct (baseline_location_priority plugin_global marker_mine test_path
              "test_img.fits" world h1 h2) as (_ & Hmine & _ & _).
  destruct (Hmine "mine" eq_refl eq_refl) as (Hbd & _ & Hfind).
  destruct (baseline_location_priority plugin_global marker test_path
              "test_img.fits" world h1 h2) as (_ & _ & Hglob & _).
  destruct (Hglob "/work/ref" eq_refl eq_refl) as (Hbd' & Hloc & Hfind').
  split; [exact Hbd|]. split; [exact Hfind|]. split; [exact Hbd'|].
  split; [exact Hloc|exact Hfind'].
Defined.

(** C10, the counterexample: the marker directory [httpdata] begins with
    [http], yet the joined path [/proj/tests/httpdata] is classified
    local and the run looks the baseline up on the file system; no URL
    is opened. *)
Lemma httpdata_dir_is_looked_up_locally :
  startswith "httpdata" "http" = true
  ∧ resolve_baseline_dir plugin_verify marker_httpdata test_path
    = "/proj/tests/httpdata"
  ∧ baseline_remote
      (resolve_baseline_dir plugin_verify marker_httpdata test_path) = false
  ∧ trace (item_function_wrapper plugin_verify marker_httpdata test_path
             test_img [] ∅ world).2
    = [EvMkdtemp "/tmp/tmp0"; EvWriteto "/tmp/tmp0/test_img.fits";
       EvExists "/proj/tests/httpdata/test_img.fits"].
Proof. vm_compute. repeat split. Qed.

(** C10 as amended, at the marker directory [httpdata]. *)
Lemma local_marker_dir_witness :
  isabs test_path = true
  ∧ kw_baseline_dir marker_httpdata = Some "httpdata"
  ∧ startswith "httpdata" "http://" = false
  ∧ startswith "httpdata" "https://" = false
  ∧ baseline_remote
      (resolve_baseline_dir plugin_verify marker_httpdata test_path) = false.
Proof.
  assert (isabs test_path = true) as h1 by reflexivity.
  assert (kw_baseline_dir marker_httpdata = Some "httpdata") as h2
    by reflexivity.
  assert (startswith "httpdata" "http://" = false) as h3 by reflexivity.
  assert (startswith "httpdata" "https://" = false) as h4 by reflexivity.
  repeat (split; [assumption|]).
  exact (proj1 (proj2 (local_marker_dir_is_never_remote plugin_verify
                         marker_httpdata test_path "httpdata"
                         "test_img.fits" world h1 h2 h3 h4))).
Defined.

(** C3, where the code departs from it: line 98 stores the absolute
    generate path as the baseline directory, as line 96 does for the
    baseline path, and leaves the generate directory as it was given.
    Run from [/work] with [--fits-generate-path=out], the plugin holds
    the relative [out]; a test that changes the working directory to
    [/proj] then has its file written to [/proj/out], while [/work/out],
    the directory relative to where the run was started, is not even
    created. *)
Theorem generate_dir_is_stored_as_given :
  let w1 := (pytest_configure cfg_generate world).2 in
  let run := item_function_wrapper plugin_generate marker test_path
               test_chdir [] ∅ w1 in
  (pytest_configure cfg_generate world).1 = Ok tt
  ∧ registered w1 = [plugin_generate]
  ∧ baseline_dir plugin_generate = Some (abspath (cwd world) "out")
  ∧ generate_dir plugin_generate = Some "out"
  ∧ isabs "out" = false
  ∧ run.1 = Raise (Skipped "Skipping test, since generating data")
  ∧ cwd run.2 = "/proj"
  ∧ files run.2 !! "/proj/out/test_chdir.fits" = Some (bytes_of "IMG")
  ∧ files run.2 !! "/work/out/test_chdir.fits" = None
  ∧ key_exists run.2 "/work/out" = false
  ∧ trace run.2
    = [EvExists "out"; EvMakedirs "out";
       EvWriteto "/proj/out/test_chdir.fits"].
Proof. vm_compute. repeat split. Qed.

(** [pytest_configure] with both paths given: one plugin, one warning. *)
Lemma configure_witness :
  (opt_fits cfg_both = true ∨ opt_fits_generate_path cfg_both ≠ None)
  ∧ isabs (cwd world) = true
  ∧ ∃ p w',
      pytest_configure cfg_both world = (Ok tt, w')
      ∧ registered w' = registered world ++ [p]
      ∧ generate_dir p = Some "out"
      ∧ baseline_dir p = Some "/work/out"
      ∧ warnings w'
        = ["Ignoring --fits-baseline-path since --fits-generate-path is set"].
Proof.
  assert (opt_fits cfg_both = true ∨ opt_fits_generate_path cfg_both ≠ None)
    as h1 by (right; discriminate).
  assert (isabs (cwd world) = true) as h2 by reflexivity.
  split; [exact h1|]. split; [exact h2|].
  destruct (configure_registers_one_plugin cfg_both world h1 h2)
    as (p & w' & Hrun & Hreg & _ & Hgen & Hbase & _ & Hwarn & _).
  exists p, w'. repeat split; assumption.
Defined.

(** C5 at a test [test_new] that has no stored baseline. *)
Lemma missing_baseline_witness :
  let w2 := (save_result (Some (bytes_of "NEW")) "test_new.fits" ∅ world).2 in
  generate_dir plugin_verify = None
  ∧ call_original test_new [] ∅ world = (Ok (Some (bytes_of "NEW")), world)
  ∧ save_result (Some (bytes_of "NEW")) (target_filename marker test_new)
      (default ∅ (kw_writeto_kwargs marker)) world
    = (Ok ("/tmp/tmp0", "/tmp/tmp0/test_new.fits"), w2)
  ∧ find_baseline test_path
      (resolve_baseline_dir plugin_verify marker test_path)
      (target_filename marker test_new) w2
    = (Ok "/proj/tests/baseline/test_new.fits", w2)
  ∧ path_exists w2 "/proj/tests/baseline/test_new.fits" = false
  ∧ (item_function_wrapper plugin_verify marker test_path test_new [] ∅
       world).1
    = Raise (Exception (missing_baseline_msg "/tmp/tmp0/test_new.fits")).
Proof.
  intros w2.
  assert (generate_dir plugin_verify = None) as h1 by reflexivity.
  assert (call_original test_new [] ∅ world
          = (Ok (Some (bytes_of "NEW")), world)) as h2 by reflexivity.
  assert (save_result (Some (bytes_of "NEW")) (target_filename marker test_new)
            (default ∅ (kw_writeto_kwargs marker)) world
          = (Ok ("/tmp/tmp0", "/tmp/tmp0/test_new.fits"), w2)) as h3
    by (vm_compute; reflexivity).
  assert (find_baseline test_path
            (resolve_baseline_dir plugin_verify marker test_path)
            (target_filename marker test_new) w2
          = (Ok "/proj/tests/baseline/test_new.fits", w2)) as h4
    by (vm_compute; reflexivity).
  assert (path_exists w2 "/proj/tests/baseline/test_new.fits" = false) as h5
    by (vm_compute; reflexivity).
  split; [exact h1|]. split; [exact h2|]. split; [exact h3|].
  split; [exact h4|]. split; [exact h5|].
  pose proof (missing_baseline_fails_before_comparison plugin_verify marker
                test_path test_new [] ∅ world world w2 w2
                (Some (bytes_of "NEW")) "/tmp/tmp0" "/tmp/tmp0/test_new.fits"
                "/proj/tests/baseline/test_new.fits" h1 h2 h3 h4 h5)
    as [Hrun _].
  by rewrite Hrun.
Defined.

(** The reporting branch at a run where [compare_fits_files] answers
    not identical. *)
Lemma mismatch_witness :
  let prep := prepare_comparison test_path
                (resolve_baseline_dir plugin_verify marker test_path)
                (target_filename marker test_img) (Some (bytes_of "IMG"))
                (default ∅ (kw_writeto_kwargs marker)) in
  let w2 := (prep world_cwd_differ).2 in
  let cmp := compare_fits_files "/tmp/tmp0/baseline-test_img.fits"
               "/tmp/tmp0/test_img.fits" (kw_atol marker)
               (default rtol_default (kw_rtol marker)) in
  let w3 := (cmp w2).2 in
  generate_dir plugin_verify = None
  ∧ call_original test_img [] ∅ world_cwd_differ
    = (Ok (Some (bytes_of "IMG")), world_cwd_differ)
  ∧ prep world_cwd_differ
    = (Ok ("/tmp/tmp0", "/tmp/tmp0/baseline-test_img.fits",
           "/tmp/tmp0/test_img.fits"), w2)
  ∧ cmp w2 = (Ok (false, "Files differ."), w3)
  ∧ item_function_wrapper plugin_verify marker test_path test_img [] ∅
      world_cwd_differ
    = (Raise (Exception "Files differ."), w3)
  ∧ path_is_dir w3 "/tmp/tmp0"
  ∧ path_is_file w3 "/tmp/tmp0/test_img.fits"
  ∧ path_is_file w3 "/tmp/tmp0/baseline-test_img.fits".
Proof.
  intros prep w2 cmp w3.
  assert (generate_dir plugin_verify = None) as h1 by reflexivity.
  assert (call_original test_img [] ∅ world_cwd_differ
          = (Ok (Some (bytes_of "IMG")), world_cwd_differ)) as h2
    by reflexivity.
  assert (prep world_cwd_differ
          = (Ok ("/tmp/tmp0", "/tmp/tmp0/baseline-test_img.fits",
                 "/tmp/tmp0/test_img.fits"), w2)) as h3
    by (vm_compute; reflexivity).
  assert (cmp w2 = (Ok (false, "Files differ."), w3)) as h4
    by (vm_compute; reflexivity).
  split; [exact h1|]. split; [exact h2|]. split; [exact h3|].
  split; [exact h4|].
  destruct (mismatch_fails_with_report_and_keeps_files plugin_verify marker
              test_path test_img [] ∅ world_cwd_differ world_cwd_differ w2 w3
              (Some (bytes_of "IMG")) "/tmp/tmp0"
              "/tmp/tmp0/baseline-test_img.fits" "/tmp/tmp0/test_img.fits"
              "Files differ." h1 h2 h3 h4)
    as (Hrun & _ & _ & Hd & Hti & Hbf).
  split; [exact Hrun|]. split; [exact Hd|]. split; [exact Hti|exact Hbf].
Defined.

(** C2, the counterexample: with [atol] in the marker the error is
    raised only after the temporary directory was made, the result
    written, and the baseline looked up and copied; and in generation
    mode no error is raised at all. *)
Lemma atol_error_comes_after_file_io :
  let run := item_function_wrapper plugin_verify marker_atol test_path
               test_img [] ∅ world in
  run.1 = Raise (NotImplementedError "atol argument not yet supported")
  ∧ trace world = []
  ∧ trace run.2
    = [EvMkdtemp "/tmp/tmp0"; EvWriteto "/tmp/tmp0/test_img.fits";
       EvExists "/proj/tests/baseline/test_img.fits";
       EvCopyfile "/proj/tests/baseline/test_img.fits"
         "/tmp/tmp0/baseline-test_img.fits"]
  ∧ path_exists world "/tmp/tmp0" = false
  ∧ path_exists run.2 "/tmp/tmp0" = true
  ∧ path_exists run.2 "/tmp/tmp0/test_img.fits" = true
  ∧ (item_function_wrapper plugin_generate marker_atol test_path test_img
       [] ∅ world).1
    = Raise (Skipped "Skipping test, since generating data").
Proof. vm_compute. repeat split. Qed.

(** C2 as amended, at the same run. *)
Lemma atol_witness :
  let prep := prepare_comparison test_path
                (resolve_baseline_dir plugin_verify marker_atol test_path)
                (target_filename marker_atol test_img)
                (Some (bytes_of "IMG"))
                (default ∅ (kw_writeto_kwargs marker_atol)) in
  let w2 := (prep world).2 in
  kw_atol marker_atol = Some (1 # 100)%Q
  ∧ generate_dir plugin_verify = None
  ∧ call_original test_img [] ∅ world = (Ok (Some (bytes_of "IMG")), world)
  ∧ prep world
    = (Ok ("/tmp/tmp0", "/tmp/tmp0/baseline-test_img.fits",
           "/tmp/tmp0/test_img.fits"), w2)
  ∧ item_function_wrapper plugin_verify marker_atol test_path test_img [] ∅
      world
    = (Raise (NotImplementedError "atol argument not yet supported"), w2)
  ∧ no_comparison world w2
  ∧ path_is_dir w2 "/tmp/tmp0".
Proof.
  intros prep w2.
  assert (kw_atol marker_atol = Some (1 # 100)%Q) as h1 by reflexivity.
  assert (generate_dir plugin_verify = None) as h2 by reflexivity.
  assert (call_original test_img [] ∅ world
          = (Ok (Some (bytes_of "IMG")), world)) as h3 by reflexivity.
  assert (prep world
          = (Ok ("/tmp/tmp0", "/tmp/tmp0/baseline-test_img.fits",
                 "/tmp/tmp0/test_img.fits"), w2)) as h4
    by (vm_compute; reflexivity).
  split; [exact h1|]. split; [exact h2|]. split; [exact h3|].
  split; [exact h4|].
  destruct (atol_fails_at_comparison_after_io plugin_verify marker_atol
              test_path test_img [] ∅ world world w2
              (Some (bytes_of "IMG")) "/tmp/tmp0"
              "/tmp/tmp0/baseline-test_img.fits" "/tmp/tmp0/test_img.fits"
              (1 # 100)%Q h1 h2 h3 h4)
    as (Hrun & _ & Hnc & Hd & _).
  split; [exact Hrun|]. split; [exact Hnc|exact Hd].
Defined.



(** C1, where the code departs from it: [compare_fits_files] replaces
    the two paths it is given by [galactic_2d.fits] and
    [equatorial_3d.fits].  Here the stored baseline (OLD) differs from
    what the test produces (IMG), and the comparator tells the two
    apart; but the working directory holds two equal files under the
    fixed names, so the wrapper compares those, passes the test and
    removes the temporary directory. *)
Theorem comparison_reads_two_fixed_files :
  let run := item_function_wrapper plugin_verify marker test_path test_img
               [] ∅ world_stale_baseline in
  files world_stale_baseline !! "/proj/tests/baseline/test_img.fits"
  = Some (bytes_of "OLD")
  ∧ identical (fits_diff (bytes_of "OLD") (bytes_of "IMG") rtol_default)
    = false
  ∧ run.1 = Ok py_none
  ∧ outcome run.1 = Passed
  ∧ trace run.2
    = [EvMkdtemp "/tmp/tmp0"; EvWriteto "/tmp/tmp0/test_img.fits";
       EvExists "/proj/tests/baseline/test_img.fits";
       EvCopyfile "/proj/tests/baseline/test_img.fits"
         "/tmp/tmp0/baseline-test_img.fits";
       EvFITSDiff "galactic_2d.fits" "equatorial_3d.fits";
       EvRmtree "/tmp/tmp0"].
Proof. vm_compute. repeat split. Qed.

(** C6, where the code departs from it, by the same two lines 57-58:
    the stored baseline and the produced file have the same bytes and
    the comparator judges them identical, yet the wrapper compares the
    two fixed files of the working directory, which differ; the test
    fails and the temporary directory stays. *)
Theorem identical_baseline_does_not_pass :
  let run := item_function_wrapper plugin_verify marker test_path test_img
               [] ∅ world_cwd_differ in
  files world_cwd_differ !! "/proj/tests/baseline/test_img.fits"
  = Some (bytes_of "IMG")
  ∧ identical (fits_diff (bytes_of "IMG") (bytes_of "IMG") rtol_default)
    = true
  ∧ run.1 = Raise (Exception "Files differ.")
  ∧ outcome run.1 = Failed (Exception "Files differ.")
  ∧ path_exists run.2 "/tmp/tmp0" = true
  ∧ files run.2 !! "/tmp/tmp0/test_img.fits" = Some (bytes_of "IMG")
  ∧ files run.2 !! "/tmp/tmp0/baseline-test_img.fits" = Some (bytes_of "IMG").
Proof. vm_compute. repeat split. Qed.

(** C7, where the code departs from it, by the same two lines 57-58:
    the stored baseline (REF) differs from what the test produces (NEW)
    and the comparator reports the two as not identical; but the
    wrapper hands the verdict on the two fixed files of the working
    directory, which are equal, to line 183: no exception is raised,
    the test passes, and the temporary directory with the generated
    file and the copy of the baseline is removed. *)
Theorem differing_baseline_does_not_fail :
  let run := item_function_wrapper plugin_verify marker test_path test_new
               [] ∅ world_differing_baseline in
  let diff := fits_diff (bytes_of "REF") (bytes_of "NEW") rtol_default in
  files world_differing_baseline !! "/proj/tests/baseline/test_new.fits"
  = Some (bytes_of "REF")
  ∧ call_original test_new [] ∅ world_differing_baseline
    = (Ok (Some (bytes_of "NEW")), world_differing_baseline)
  ∧ identical diff = false
  ∧ report diff = "Files differ."
  ∧ run.1 = Ok py_none
  ∧ outcome run.1 = Passed
  ∧ path_exists run.2 "/tmp/tmp0" = false
  ∧ files run.2 !! "/tmp/tmp0/test_new.fits" = None
  ∧ files run.2 !! "/tmp/tmp0/baseline-test_new.fits" = None
  ∧ last (trace run.2) = Some (EvRmtree "/tmp/tmp0").
Proof. vm_compute. repeat split. Qed.

(** ** Further properties on concrete runs *)

(** X1 at a URL that is served. *)
Lemma download_witness :
  let url := "https://example.org/ref/test_img.fits" in
  let w' := (_download_file url world_web).2 in
  _download_file url world_web = (Ok "/tmp/tmp0/downloaded", w')
  ∧ ∃ c d, web world_web !! url = Some c
           ∧ get_file "/tmp/tmp0/downloaded" w' = (Ok c, w')
           ∧ path_exists world_web d = false.
Proof.
  intros url w'.
  assert (_download_file url world_web = (Ok "/tmp/tmp0/downloaded", w'))
    as h by (vm_compute; reflexivity).
  split; [exact h|].
  destruct (download_file_stores_the_body url "/tmp/tmp0/downloaded"
              world_web w' h) as (c & d & H1 & _ & H3 & _ & H5 & _).
  exists c, d. split; [exact H1|]. split; [exact H5|exact H3].
Defined.

(** X2 at a URL that is not served. *)
Lemma unreachable_url_witness :
  web world !! "https://example.org/ref/test_img.fits" = None
  ∧ _download_file "https://example.org/ref/test_img.fits" world
    = (Raise (URLError "https://example.org/ref/test_img.fits"),
       log_event (EvUrlopen "https://example.org/ref/test_img.fits") world).
Proof.
  assert (web world !! "https://example.org/ref/test_img.fits" = None) as h
    by reflexivity.
  split; [exact h|].
  exact (download_file_unreachable_url _ world h).
Defined.

(** X3 at a marker directory given as a URL. *)
Lemma remote_baseline_witness :
  let w' := (find_baseline test_path "https://example.org/ref/"
               "test_img.fits" world_web).2 in
  baseline_remote "https://example.org/ref/" = true
  ∧ find_baseline test_path "https://example.org/ref/" "test_img.fits"
      world_web = (Ok "/tmp/tmp0/downloaded", w')
  ∧ path_exists w' "/tmp/tmp0/downloaded" = true.
Proof.
  intros w'.
  assert (baseline_remote "https://example.org/ref/" = true) as h1
    by reflexivity.
  assert (find_baseline test_path "https://example.org/ref/" "test_img.fits"
            world_web = (Ok "/tmp/tmp0/downloaded", w')) as h2
    by (vm_compute; reflexivity).
  split; [exact h1|]. split; [exact h2|].
  exact (proj1 (remote_baseline_is_never_missing test_path
                  "https://example.org/ref/" "test_img.fits"
                  "/tmp/tmp0/downloaded" world_web w' h1 h2)).
Defined.

(** X5 at a test that raises. *)
Lemma test_error_witness :
  call_original test_boom [] ∅ world = (Raise (TestError "boom"), world)
  ∧ item_function_wrapper plugin_verify marker test_path test_boom [] ∅ world
    = (Raise (TestError "boom"), world).
Proof.
  assert (call_original test_boom [] ∅ world
          = (Raise (TestError "boom"), world)) as h by reflexivity.
  split; [exact h|].
  exact (test_error_propagates plugin_verify marker test_path test_boom
           [] ∅ world world (TestError "boom") h).
Defined.

(** X6 at the first temporary directory of [world]. *)
Lemma save_result_witness :
  let w' := (save_result (Some (bytes_of "IMG")) "test_img.fits" ∅ world).2 in
  save_result (Some (bytes_of "IMG")) "test_img.fits" ∅ world
  = (Ok ("/tmp/tmp0", "/tmp/tmp0/test_img.fits"), w')
  ∧ path_exists world "/tmp/tmp0" = false
  ∧ path_is_dir w' "/tmp/tmp0".
Proof.
  intros w'.
  assert (save_result (Some (bytes_of "IMG")) "test_img.fits" ∅ world
          = (Ok ("/tmp/tmp0", "/tmp/tmp0/test_img.fits"), w')) as h
    by (vm_compute; reflexivity).
  split; [exact h|].
  destruct (@save_result_uses_a_fresh_directory collab
              (Some (bytes_of "IMG"))
              "test_img.fits" "/tmp/tmp0" "/tmp/tmp0/test_img.fits" ∅
              world w' h) as (H1 & H2 & _).
  split; [exact H1|exact H2].
Defined.

(** X7 at a test that returns [None]. *)
Lemma unwritable_result_witness :
  let w2 := (mkdtemp world).2 in
  generate_dir plugin_verify = None
  ∧ call_original test_none [] ∅ world = (Ok None, world)
  ∧ hdu_bytes (None : PyObj) (default ∅ (kw_writeto_kwargs marker)) = None
  ∧ mkdtemp world = (Ok "/tmp/tmp0", w2)
  ∧ (item_function_wrapper plugin_verify marker test_path test_none [] ∅
       world).1 = Raise WriterError
  ∧ path_exists world "/tmp/tmp0" = false.
Proof.
  intros w2.
  assert (generate_dir plugin_verify = None) as h1 by reflexivity.
  assert (call_original test_none [] ∅ world = (Ok None, world)) as h2
    by reflexivity.
  assert (hdu_bytes (None : PyObj) (default ∅ (kw_writeto_kwargs marker))
          = None) as h3 by reflexivity.
  assert (mkdtemp world = (Ok "/tmp/tmp0", w2)) as h4
    by (vm_compute; reflexivity).
  split; [exact h1|]. split; [exact h2|]. split; [exact h3|].
  split; [exact h4|].
  destruct (unwritable_result_leaves_the_tmpdir plugin_verify marker
              test_path "/tmp/tmp0" test_none [] ∅ world world w2 None
              h1 h2 h3 h4) as (Hrun & Hfresh & _).
  split; [by rewrite Hrun|exact Hfresh].
Defined.

(** X8 at a test that has no stored baseline. *)
Lemma missing_baseline_file_witness :
  let w2 := (save_result (Some (bytes_of "NEW")) "test_new.fits" ∅ world).2 in
  generate_dir plugin_verify = None
  ∧ call_original test_new [] ∅ world = (Ok (Some (bytes_of "NEW")), world)
  ∧ save_result (Some (bytes_of "NEW")) (target_filename marker test_new)
      (default ∅ (kw_writeto_kwargs marker)) world
    = (Ok ("/tmp/tmp0", "/tmp/tmp0/test_new.fits"), w2)
  ∧ find_baseline test_path
      (resolve_baseline_dir plugin_verify marker test_path)
      (target_filename marker test_new) w2
    = (Ok "/proj/tests/baseline/test_new.fits", w2)
  ∧ path_exists w2 "/proj/tests/baseline/test_new.fits" = false
  ∧ baseline_remote (resolve_baseline_dir plugin_verify marker test_path)
    = false.
Proof.
  intros w2.
  assert (generate_dir plugin_verify = None) as h1 by reflexivity.
  assert (call_original test_new [] ∅ world
          = (Ok (Some (bytes_of "NEW")), world)) as h2 by reflexivity.
  assert (save_result (Some (bytes_of "NEW")) (target_filename marker test_new)
            (default ∅ (kw_writeto_kwargs marker)) world
          = (Ok ("/tmp/tmp0", "/tmp/tmp0/test_new.fits"), w2)) as h3
    by (vm_compute; reflexivity).
  assert (find_baseline test_path
            (resolve_baseline_dir plugin_verify marker test_path)
            (target_filename marker test_new) w2
          = (Ok "/proj/tests/baseline/test_new.fits", w2)) as h4
    by (vm_compute; reflexivity).
  assert (path_exists w2 "/proj/tests/baseline/test_new.fits" = false) as h5
    by (vm_compute; reflexivity).
  split; [exact h1|]. split; [exact h2|]. split; [exact h3|].
  split; [exact h4|]. split; [exact h5|].
  exact (proj1 (missing_baseline_keeps_the_generated_file plugin_verify
                  marker test_path test_new [] ∅ world world w2 w2
                  (Some (bytes_of "NEW")) "/tmp/tmp0"
                  "/tmp/tmp0/test_new.fits"
                  "/proj/tests/baseline/test_new.fits" h1 h2 h3 h4 h5)).
Defined.

(** X10 at a working directory without the two files. *)
Lemma fixed_files_witness :
  let prep := prepare_comparison test_path
                (resolve_baseline_dir plugin_verify marker test_path)
                (target_filename marker test_img) (Some (bytes_of "IMG"))
                (default ∅ (kw_writeto_kwargs marker)) in
  let w2 := (prep world).2 in
  generate_dir plugin_verify = None
  ∧ kw_atol marker = None
  ∧ call_original test_img [] ∅ world = (Ok (Some (bytes_of "IMG")), world)
  ∧ prep world
    = (Ok ("/tmp/tmp0", "/tmp/tmp0/baseline-test_img.fits",
           "/tmp/tmp0/test_img.fits"), w2)
  ∧ (files w2 !! resolve w2 "galactic_2d.fits" = None
     ∨ files w2 !! resolve w2 "equatorial_3d.fits" = None)
  ∧ ∃ f, item_function_wrapper plugin_verify marker test_path test_img [] ∅
           world
         = (Raise (OSError f),
            log_event (EvFITSDiff "galactic_2d.fits" "equatorial_3d.fits")
              w2).
Proof.
  intros prep w2.
  assert (generate_dir plugin_verify = None) as h1 by reflexivity.
  assert (kw_atol marker = None) as h2 by reflexivity.
  assert (call_original test_img [] ∅ world
          = (Ok (Some (bytes_of "IMG")), world)) as h3 by reflexivity.
  assert (prep world
          = (Ok ("/tmp/tmp0", "/tmp/tmp0/baseline-test_img.fits",
                 "/tmp/tmp0/test_img.fits"), w2)) as h4
    by (vm_compute; reflexivity).
  assert (files w2 !! resolve w2 "galactic_2d.fits" = None
          ∨ files w2 !! resolve w2 "equatorial_3d.fits" = None) as h5
    by (left; vm_compute; reflexivity).
  split; [exact h1|]. split; [exact h2|]. split; [exact h3|].
  split; [exact h4|]. split; [exact h5|].
  destruct (comparison_needs_the_two_fixed_files plugin_verify marker
              test_path test_img [] ∅ world world w2
              (Some (bytes_of "IMG")) "/tmp/tmp0"
              "/tmp/tmp0/baseline-test_img.fits" "/tmp/tmp0/test_img.fits"
              h1 h2 h3 h4 h5) as (f & _ & Hrun & _).
  exists f. exact Hrun.
Defined.

(** X11 at a run whose comparator call answers identical. *)
Lemma passing_run_witness :
  let prep := prepare_comparison test_path
                (resolve_baseline_dir plugin_verify marker test_path)
                (target_filename marker test_img) (Some (bytes_of "IMG"))
                (default ∅ (kw_writeto_kwargs marker)) in
  let w2 := (prep world_cwd_equal).2 in
  let cmp := compare_fits_files "/tmp/tmp0/baseline-test_img.fits"
               "/tmp/tmp0/test_img.fits" (kw_atol marker)
               (default rtol_default (kw_rtol marker)) in
  let w3 := (cmp w2).2 in
  generate_dir plugin_verify = None
  ∧ call_original test_img [] ∅ world_cwd_equal
    = (Ok (Some (bytes_of "IMG")), world_cwd_equal)
  ∧ prep world_cwd_equal
    = (Ok ("/tmp/tmp0", "/tmp/tmp0/baseline-test_img.fits",
           "/tmp/tmp0/test_img.fits"), w2)
  ∧ cmp w2 = (Ok (true, "No differences found."), w3)
  ∧ ∃ w4,
      item_function_wrapper plugin_verify marker test_path test_img [] ∅
        world_cwd_equal = (Ok py_none, w4)
      ∧ path_exists w4 "/tmp/tmp0" = false.
Proof.
  intros prep w2 cmp w3.
  assert (generate_dir plugin_verify = None) as h1 by reflexivity.
  assert (call_original test_img [] ∅ world_cwd_equal
          = (Ok (Some (bytes_of "IMG")), world_cwd_equal)) as h2
    by reflexivity.
  assert (prep world_cwd_equal
          = (Ok ("/tmp/tmp0", "/tmp/tmp0/baseline-test_img.fits",
                 "/tmp/tmp0/test_img.fits"), w2)) as h3
    by (vm_compute; reflexivity).
  assert (cmp w2 = (Ok (true, "No differences found."), w3)) as h4
    by (vm_compute; reflexivity).
  split; [exact h1|]. split; [exact h2|]. split; [exact h3|].
  split; [exact h4|].
  destruct (passing_run_removes_only_the_tmpdir plugin_verify marker
              test_path test_img [] ∅ world_cwd_equal world_cwd_equal w2 w3
              (Some (bytes_of "IMG")) "/tmp/tmp0"
              "/tmp/tmp0/baseline-test_img.fits" "/tmp/tmp0/test_img.fits"
              "No differences found." h1 h2 h3 h4)
    as (w4 & Hrun & Hgone & _).
  exists w4. split; [exact Hrun|exact Hgone].
Defined.

(** X12 at a generation run into a directory that does not exist yet. *)
Lemma generation_footprint_witness :
  let run := item_function_wrapper plugin_generate marker test_path
               test_img [] ∅ world in
  generate_dir plugin_generate = Some "out"
  ∧ call_original test_img [] ∅ world = (Ok (Some (bytes_of "IMG")), world)
  ∧ run = (Raise (Skipped "Skipping test, since generating data"), run.2)
  ∧ web run.2 = web world
  ∧ tmp_seq run.2 = tmp_seq world
  ∧ files run.2 !! "/proj/tests/baseline/test_img.fits"
    = files world !! "/proj/tests/baseline/test_img.fits".
Proof.
  intros run.
  assert (generate_dir plugin_generate = Some "out") as h1 by reflexivity.
  assert (call_original test_img [] ∅ world
          = (Ok (Some (bytes_of "IMG")), world)) as h2 by reflexivity.
  assert (run = (Raise (Skipped "Skipping test, since generating data"),
                 run.2)) as h3 by (vm_compute; reflexivity).
  split; [exact h1|]. split; [exact h2|]. split; [exact h3|].
  destruct (generation_touches_only_its_target plugin_generate marker
              test_path "out" test_img [] ∅ world world run.2
              (Some (bytes_of "IMG")) _ h1 h2 h3)
    as (Hfiles & _ & Hweb & Hseq & _).
  split; [exact Hweb|]. split; [exact Hseq|].
  apply Hfiles. vm_compute. discriminate.
Defined.


(** X14 at a marked test function outside a class. *)
Lemma setup_with_marker_witness :
  keywords item_marked !! "fits_compare" = Some marker
  ∧ obj (pytest_runtest_setup plugin_verify item_marked)
    = FitsWrapper plugin_verify marker test_path test_img
  ∧ function (pytest_runtest_setup plugin_verify item_marked) = test_img.
Proof.
  assert (keywords item_marked !! "fits_compare" = Some marker) as h
    by reflexivity.
  split; [exact h|].
  destruct (setup_with_marker_installs_the_wrapper plugin_verify item_marked
              marker h) as (_ & Hfun & _ & Hobj & _).
  split; [exact (proj1 (Hobj eq_refl))|exact Hfun].
Defined.

(** X15 at a marker directory given as an absolute path. *)
Lemma absolute_marker_dir_witness :
  kw_baseline_dir marker_abs = Some "/data/ref"
  ∧ isabs "/data/ref" = true
  ∧ resolve_baseline_dir plugin_verify marker_abs test_path = "/data/ref"
  ∧ find_baseline test_path "/data/ref" "test_img.fits" world
    = (Ok "/data/ref/test_img.fits", world).
Proof.
  assert (kw_baseline_dir marker_abs = Some "/data/ref") as h1
    by reflexivity.
  assert (isabs "/data/ref" = true) as h2 by reflexivity.
  split; [exact h1|]. split; [exact h2|].
  destruct (absolute_marker_dir_is_kept plugin_verify marker_abs test_path
              "/data/ref" "test_img.fits" world h1 h2) as (Hd & _ & Hfind).
  split; [exact Hd|exact Hfind].
Defined.

(** X16 at [--fits --fits-baseline-path=ref] run from [/work]. *)
Lemma configured_baseline_witness :
  opt_fits cfg_baseline = true
  ∧ opt_fits_generate_path cfg_baseline = None
  ∧ opt_fits_baseline_path cfg_baseline = Some "ref"
  ∧ isabs (cwd world) = true
  ∧ ∃ p w',
      pytest_configure cfg_baseline world = (Ok tt, w')
      ∧ registered w' = registered world ++ [p]
      ∧ resolve_baseline_dir p marker test_path = "/work/ref"
      ∧ find_baseline test_path (resolve_baseline_dir p marker test_path)
          "test_img.fits" world
        = (Ok "/work/ref/test_img.fits", world).
Proof.
  assert (opt_fits cfg_baseline = true) as h1 by reflexivity.
  assert (opt_fits_generate_path cfg_baseline = None) as h2 by reflexivity.
  assert (opt_fits_baseline_path cfg_baseline = Some "ref") as h3
    by reflexivity.
  assert (isabs (cwd world) = true) as h4 by reflexivity.
  split; [exact h1|]. split; [exact h2|]. split; [exact h3|].
  split; [exact h4|].
  destruct (configured_baseline_path_is_absolute_and_local cfg_baseline
              "ref" world h1 h2 h3 h4) as (p & w' & Hrun & Hreg & _ & Hall).
  exists p, w'. split; [exact Hrun|]. split; [exact Hreg|].
  destruct (Hall marker test_path "test_img.fits" world eq_refl)
    as (Hd & _ & Hfind).
  split; [exact Hd|exact Hfind].
Defined.
